(** * KeplerAI: exoplanet disposition pipeline

    A shallow embedding of the two Python modules of the backend,

    - [backend/app.py]: class [ExoplanetPredictor] ([load_model], [predict]);
    - [backend/train_model.py]: class [ExoplanetClassifier]
      ([load_and_preprocess_data], [predict]),

    and the properties of their behaviour.

    Conventions of the embedding.
    - A Python [float] that holds a finite number is a rational [Q]; arithmetic
      is exact.  NaN, the missing-value marker of pandas, is the absence of a
      cell ([None]).
    - A Python exception is a value of [exn]; code that may raise returns
      [result].
    - The input [dict] of [predict] is only probed by key, it is a [gmap];
      the dictionaries that [predict] builds are iterated in insertion order,
      they are association lists ([pydict]).
    - scikit-learn objects are records holding the fitted state; the forest of
      decision trees is an opaque function from a feature vector to its
      per-class vote shares. *)

From Stdlib Require Import QArith Qabs Qround Lqa Sorted.
From stdpp Require Import base option list gmap strings.

Local Open Scope string_scope.

(** ** Python preliminaries *)

Module Py.

Inductive exn : Type :=
| ValueError (msg : string)
| KeyError (key : string)
| IndexError
| TypeError
| AttributeError.

Inductive result (A : Type) : Type :=
| Ok (a : A)
| Raise (e : exn).
Arguments Ok {A} a.
Arguments Raise {A} e.

Definition bind {A B : Type} (m : result A) (k : A -> result B) : result B :=
  match m with
  | Ok a => k a
  | Raise e => Raise e
  end.

Definition raises {A : Type} (m : result A) : Prop :=
  match m with
  | Ok _ => False
  | Raise _ => True
  end.

(** [float] comparison [a > b]. *)
Definition Qgtb (a b : Q) : bool :=
  match (a ?= b)%Q with
  | Gt => true
  | _ => false
  end.

(** [a >= b] and [a <= b]. *)
Definition Qgeb (a b : Q) : bool := Qle_bool b a.
Definition Qleb (a b : Q) : bool := Qle_bool a b.

(** Arithmetic on a [float] that may be NaN ([None]): NaN propagates. *)
Definition nan2 (f : Q -> Q -> Q) (a b : option Q) : option Q :=
  match a, b with
  | Some x, Some y => Some (f x y)
  | _, _ => None
  end.

(** A [dict] with string keys, in insertion order. *)
Definition pydict (V : Type) : Type := list (string * V).

(** [d[k] = v]: overwrite in place, or append a new key. *)
Fixpoint dict_set {V : Type} (d : pydict V) (k : string) (v : V) : pydict V :=
  match d with
  | [] => [(k, v)]
  | (k', v') :: d' =>
      if String.eqb k' k then (k', v) :: d' else (k', v') :: dict_set d' k v
  end.

(** [d.get(k, default)]. *)
Fixpoint dict_get {V : Type} (d : pydict V) (k : string) (default : V) : V :=
  match d with
  | [] => default
  | (k', v') :: d' => if String.eqb k' k then v' else dict_get d' k default
  end.

Definition keys {V : Type} (d : pydict V) : list string := map fst d.
Definition values {V : Type} (d : pydict V) : list V := map snd d.

(** [k in [..]] on a list of strings. *)
Definition str_in (k : string) (l : list string) : bool :=
  existsb (String.eqb k) l.

(** [max(xs)] of the builtins: the first greatest item. *)
Definition py_max (xs : list Q) : result Q :=
  match xs with
  | [] => Raise (ValueError "max() arg is an empty sequence")
  | x :: rest => Ok (fold_left (fun m y => if Qgtb y m then y else m) rest x)
  end.

(** [numpy.argmax] on one row: the index of the first greatest item. *)
Fixpoint argmax_from (xs : list Q) (i : nat) (best : nat) (m : Q) : nat :=
  match xs with
  | [] => best
  | y :: rest =>
      if Qgtb y m then argmax_from rest (S i) i y
      else argmax_from rest (S i) best m
  end.

Definition argmax (xs : list Q) : result nat :=
  match xs with
  | [] => Raise (ValueError "attempt to get argmax of an empty sequence")
  | x :: rest => Ok (argmax_from rest 1 0 x)
  end.

(** The line feed that ends a line of a text file. *)
Definition newline : string := String (Ascii.ascii_of_nat 10) EmptyString.

(** [str.strip()]: drop the white space at both ends. *)
Definition is_space (c : Ascii.ascii) : bool :=
  let n := Ascii.nat_of_ascii c in
  (Nat.eqb n 32 || (Nat.leb 9 n && Nat.leb n 13))%bool.

Fixpoint lstrip (s : string) : string :=
  match s with
  | String c s' => if is_space c then lstrip s' else s
  | EmptyString => EmptyString
  end.

Fixpoint rstrip (s : string) : string :=
  match s with
  | String c s' =>
      match rstrip s' with
      | EmptyString => if is_space c then EmptyString else String c EmptyString
      | t => String c t
      end
  | EmptyString => EmptyString
  end.

Definition strip (s : string) : string := rstrip (lstrip s).

End Py.
Import Py.

Notation "'let*' x ':=' m 'in' k" := (Py.bind m (fun x => k))
  (at level 10, x name, m at level 100, k at level 200).

(** ** The scikit-learn objects the two modules use *)

Module Sklearn.

(** [StandardScaler] after [fit]: one (mean, scale) pair per feature. *)
Record StandardScaler : Type := mkScaler {
  params : list (Q * Q)
}.

(** [scaler.transform(X)] on one row: [(x - mean) / scale] per feature; a row
    of another width is refused. *)
Definition transform (s : StandardScaler) (x : list Q) : result (list Q) :=
  if Nat.eqb (length x) (length (params s)) then
    Ok (zip_with (fun v ms => ((v - fst ms) / snd ms)%Q) x (params s))
  else Raise (ValueError "X has a different number of features than StandardScaler is expecting").

(** [LabelEncoder] after [fit]: the sorted distinct labels. *)
Record LabelEncoder : Type := mkEncoder {
  classes_ : list string
}.

(** [encoder.inverse_transform([code])[0]]. *)
Definition inverse_transform (e : LabelEncoder) (code : nat) : result string :=
  match classes_ e !! code with
  | Some l => Ok l
  | None => Raise (ValueError "y contains previously unseen labels")
  end.

(** [RandomForestClassifier] after [fit]: the width of the rows it was fitted
    on and the averaged votes of its trees, one share per class. *)
Record RandomForestClassifier : Type := mkForest {
  n_features_in_ : nat;
  votes : list Q -> list Q
}.

(** [model.predict_proba(X)[0]]. *)
Definition predict_proba (m : RandomForestClassifier) (x : list Q) : result (list Q) :=
  if Nat.eqb (length x) (n_features_in_ m) then Ok (votes m x)
  else Raise (ValueError "X has a different number of features than RandomForestClassifier is expecting").

(** [model.predict(X)[0]]: the class code with the greatest share, the first
    one on a tie. *)
Definition predict (m : RandomForestClassifier) (x : list Q) : result nat :=
  let* p := predict_proba m x in
  argmax p.

(** What [joblib.load] can give back. *)
Inductive pyobj : Type :=
| PyForest (m : RandomForestClassifier)
| PyScaler (s : StandardScaler)
| PyEncoder (e : LabelEncoder).

End Sklearn.
Import Sklearn.

(** ** The pandas operations the two modules use *)

Module Pandas.

(** The one-row frame [pd.DataFrame([features])]: column name to cell. *)
Abbreviation frame := (gmap string Q).

(** [features_df[cols]] on a one-row frame: the cells in the order of [cols];
    a column that is not there is a [KeyError]. *)
Fixpoint select_columns (cols : list string) (features_df : frame) : result (list Q) :=
  match cols with
  | [] => Ok []
  | col :: rest =>
      match features_df !! col with
      | Some v => let* vs := select_columns rest features_df in Ok (v :: vs)
      | None => Raise (KeyError col)
      end
  end.

(** A row of the training table: its numeric cells by column name (a cell
    that is absent is NaN) and its cell in the target column. *)
Record Row : Type := mkRow {
  cells : gmap string Q;
  disposition : option string
}.

(** A table: the names of its columns and its rows, in order. *)
Record DataFrame : Type := mkDataFrame {
  columns : list string;
  rows : list Row
}.

(** [col in df.columns]. *)
Definition has_column (df : DataFrame) (col : string) : bool := str_in col (columns df).

(** [df[mask]]: the rows that pass, in order. *)
Definition keep_rows (p : Row -> bool) (df : DataFrame) : DataFrame :=
  {| columns := columns df; rows := List.filter p (rows df) |}.

(** The values of [df[col]] that are not NaN, in row order. *)
Definition column_values (df : DataFrame) (col : string) : list Q :=
  omap (fun r => cells r !! col) (rows df).

(** Ascending sort of the values. *)
Fixpoint insert_sorted (x : Q) (l : list Q) : list Q :=
  match l with
  | [] => [x]
  | y :: l' => if Qle_bool x y then x :: l else y :: insert_sorted x l'
  end.

Definition sort_values (l : list Q) : list Q := fold_right insert_sorted [] l.

(** [Series.quantile(q)]: NaN is skipped; between the two order statistics
    around position [q * (n - 1)] the value is interpolated linearly; on no
    value at all the result is NaN. *)
Definition quantile (q : Q) (xs : list Q) : option Q :=
  let sorted := sort_values xs in
  match sorted with
  | [] => None
  | _ :: _ =>
      let n := length sorted in
      let h := (q * inject_Z (Z.of_nat (n - 1)))%Q in
      let lo := Z.to_nat (Qfloor h) in
      let hi := Nat.min (S lo) (n - 1) in
      let frac := (h - inject_Z (Qfloor h))%Q in
      let v_lo := nth lo sorted 0%Q in
      let v_hi := nth hi sorted 0%Q in
      Some (v_lo + frac * (v_hi - v_lo))%Q
  end.

(** [Series.median()]: NaN is skipped; the middle value, or the mean of the
    two middle values; NaN on no value at all. *)
Definition median (xs : list Q) : option Q :=
  let sorted := sort_values xs in
  match sorted with
  | [] => None
  | _ :: _ =>
      let n := length sorted in
      if Nat.even n then
        Some ((nth (n / 2 - 1) sorted 0%Q + nth (n / 2) sorted 0%Q) / 2)%Q
      else Some (nth (n / 2) sorted 0%Q)
  end.

(** [df.dropna(subset=cols)]: the rows with a value in every column of [cols]. *)
Definition dropna (subset : list string) (df : DataFrame) : DataFrame :=
  keep_rows (fun r => forallb (fun col => bool_decide (is_Some (cells r !! col))) subset) df.

(** [df[col] = df[col].fillna(value)]: a NaN cell takes the value; filling with
    NaN changes nothing. *)
Definition fillna (col : string) (value : option Q) (df : DataFrame) : DataFrame :=
  match value with
  | None => df
  | Some v =>
      {| columns := columns df;
         rows := map (fun r =>
                   match cells r !! col with
                   | Some _ => r
                   | None => {| cells := <[col := v]> (cells r); disposition := disposition r |}
                   end) (rows df) |}
  end.

End Pandas.
Import Pandas.

(** ** backend/app.py *)

Module App.

Definition MODEL_DIR : string := "models".

(** [os.path.join(MODEL_DIR, name)]. *)
Definition path_join (dir name : string) : string := dir ++ "/" ++ name.

(** A file of the model directory, seen through the two readers that
    [load_model] applies to it: what [joblib.load] returns on it and what
    [readlines] in text mode returns on it ([None]: the reader raises). *)
Record file : Type := mkFile {
  unpickled : option pyobj;
  text_lines : option (list string)
}.

(** The part of the file system [load_model] looks at: path to file. *)
Abbreviation filesystem := (gmap string file).

(** [os.path.exists(path)]. *)
Definition path_exists (fs : filesystem) (path : string) : bool :=
  bool_decide (is_Some (fs !! path)).

Definition joblib_load (fs : filesystem) (path : string) : result pyobj :=
  match fs !! path with
  | Some f =>
      match unpickled f with
      | Some o => Ok o
      | None => Raise (ValueError "could not unpickle")
      end
  | None => Raise (ValueError "no such file")
  end.

Definition readlines (fs : filesystem) (path : string) : result (list string) :=
  match fs !! path with
  | Some f =>
      match text_lines f with
      | Some ls => Ok ls
      | None => Raise (ValueError "could not decode")
      end
  | None => Raise (ValueError "no such file")
  end.

(** The attributes of an [ExoplanetPredictor]; [None] is Python's [None]. *)
Record ExoplanetPredictor : Type := mkPredictor {
  model : option pyobj;
  scaler : option pyobj;
  label_encoder : option pyobj;
  feature_columns : option (list string)
}.

(** The attributes as [__init__] sets them before it calls [load_model]. *)
Definition init : ExoplanetPredictor :=
  {| model := None; scaler := None; label_encoder := None; feature_columns := None |}.

(** [load_model]: the four paths are tested first; the attributes are assigned
    one after the other, and an exception raised on the way is caught and
    logged, which leaves the assignments made before it in place. *)
Definition load_model (fs : filesystem) (self : ExoplanetPredictor) : ExoplanetPredictor :=
  let model_path := path_join MODEL_DIR "exoplanet_classifier.pkl" in
  let scaler_path := path_join MODEL_DIR "feature_scaler.pkl" in
  let encoder_path := path_join MODEL_DIR "label_encoder.pkl" in
  let features_path := path_join MODEL_DIR "feature_names.txt" in
  if forallb (path_exists fs) [model_path; scaler_path; encoder_path; features_path] then
    match joblib_load fs model_path with
    | Raise _ => self
    | Ok m =>
        let self1 := {| model := Some m; scaler := scaler self;
                        label_encoder := label_encoder self;
                        feature_columns := feature_columns self |} in
        match joblib_load fs scaler_path with
        | Raise _ => self1
        | Ok s =>
            let self2 := {| model := Some m; scaler := Some s;
                            label_encoder := label_encoder self;
                            feature_columns := feature_columns self |} in
            match joblib_load fs encoder_path with
            | Raise _ => self2
            | Ok e =>
                let self3 := {| model := Some m; scaler := Some s;
                                label_encoder := Some e;
                                feature_columns := feature_columns self |} in
                match readlines fs features_path with
                | Raise _ => self3
                | Ok ls =>
                    {| model := Some m; scaler := Some s; label_encoder := Some e;
                       feature_columns := Some (map strip ls) |}
                end
            end
        end
    end
  else self.

(** [ExoplanetPredictor()]: the constructor. *)
Definition new (fs : filesystem) : ExoplanetPredictor := load_model fs init.

(** The dictionary [predict] returns. *)
Record PredictionResult : Type := mkResult {
  prediction : string;
  confidence_scores : pydict Q;
  max_confidence : Q;
  features_used : list string
}.

(** The loop over [self.feature_columns] that completes the frame: a column
    that is absent is filled with 0.0 when it is one of the three optional
    ones, and is an error otherwise. *)
Fixpoint ensure_columns (cols : list string) (features_df : frame) : result frame :=
  match cols with
  | [] => Ok features_df
  | col :: rest =>
      match features_df !! col with
      | Some _ => ensure_columns rest features_df
      | None =>
          if str_in col ["koi_impact"; "koi_score"; "koi_slogg"] then
            ensure_columns rest (<[col := 0%Q]> features_df)
          else Raise (ValueError ("Required feature '" ++ col ++ "' is missing"))
      end
  end.

(** The loop [for i, class_name in enumerate(classes_)] that fills
    [confidence_scores] from [probabilities[0]]. *)
Fixpoint score_classes (classes : list string) (i : nat) (probabilities : list Q)
    (confidence_scores : pydict Q) : result (pydict Q) :=
  match classes with
  | [] => Ok confidence_scores
  | class_name :: rest =>
      match probabilities !! i with
      | Some p => score_classes rest (S i) probabilities (dict_set confidence_scores class_name p)
      | None => Raise IndexError
      end
  end.

(** The merging loop over [confidence_scores.items()]; the state is the pair
    of [merged_confidence_scores] and [confirmed_candidate_score]. *)
Fixpoint merge_scores (items : list (string * Q)) (merged : pydict Q) (confirmed_candidate_score : Q)
    : pydict Q * Q :=
  match items with
  | [] => (merged, confirmed_candidate_score)
  | (class_name, score) :: rest =>
      if str_in class_name ["CONFIRMED"; "CANDIDATE"] then
        merge_scores rest merged (confirmed_candidate_score + score)%Q
      else merge_scores rest (dict_set merged class_name score) confirmed_candidate_score
  end.

(** From the class probabilities to the returned dictionary: the part of
    [predict] below the comment "Get confidence scores". *)
Definition decide_verdict (classes : list string) (probabilities : list Q)
    (cols : list string) : result PredictionResult :=
  let* confidence_scores := score_classes classes 0 probabilities [] in
  let '(merged0, confirmed_candidate_score) := merge_scores confidence_scores [] 0%Q in
  let merged_confidence_scores := dict_set merged0 "CONFIRMED/CANDIDATE" confirmed_candidate_score in
  let false_positive_score := dict_get merged_confidence_scores "FALSE POSITIVE" 0%Q in
  if Qgtb confirmed_candidate_score false_positive_score then
    Ok {| prediction := "CONFIRMED/CANDIDATE";
          confidence_scores := merged_confidence_scores;
          max_confidence := confirmed_candidate_score;
          features_used := cols |}
  else
    Ok {| prediction := "FALSE POSITIVE";
          confidence_scores := merged_confidence_scores;
          max_confidence := false_positive_score;
          features_used := cols |}.

(** Attribute access on the loaded objects: a method that the object does not
    have is an [AttributeError]. *)
Definition as_forest (o : option pyobj) : result RandomForestClassifier :=
  match o with
  | Some (PyForest m) => Ok m
  | _ => Raise AttributeError
  end.

Definition as_scaler (o : option pyobj) : result StandardScaler :=
  match o with
  | Some (PyScaler s) => Ok s
  | _ => Raise AttributeError
  end.

Definition as_encoder (o : option pyobj) : result LabelEncoder :=
  match o with
  | Some (PyEncoder e) => Ok e
  | _ => Raise AttributeError
  end.

(** [predict(self, features)] on a [dict]. *)
Definition predict (self : ExoplanetPredictor) (features : gmap string Q) : result PredictionResult :=
  match model self with
  | None => Raise (ValueError "Model not loaded. Please train the model first.")
  | Some _ =>
      let features_df := features in
      let* cols :=
        match feature_columns self with
        | Some cols => Ok cols
        | None => Raise TypeError
        end in
      let* features_df := ensure_columns cols features_df in
      let* features_selected := select_columns cols features_df in
      let* sc := as_scaler (scaler self) in
      let* features_scaled := transform sc features_selected in
      let* mdl := as_forest (model self) in
      let* prediction := Sklearn.predict mdl features_scaled in
      let* probabilities := predict_proba mdl features_scaled in
      let* enc := as_encoder (label_encoder self) in
      let* predicted_label := inverse_transform enc prediction in
      decide_verdict (classes_ enc) probabilities cols
  end.

End App.

(** ** backend/train_model.py *)

Module Train.

(** [self.feature_columns] of [ExoplanetClassifier.__init__]: nine required
    parameters, then three optional ones. *)
Definition feature_columns : list string :=
  [ "koi_period"; "koi_duration"; "koi_depth"; "koi_prad"; "koi_teq";
    "koi_insol"; "koi_model_snr"; "koi_steff"; "koi_srad";
    "koi_impact"; "koi_score"; "koi_slogg" ].

Definition target_column : string := "koi_disposition".

Definition valid_dispositions : list string := ["CONFIRMED"; "CANDIDATE"; "FALSE POSITIVE"].

(** [self.feature_columns[:9]] and [self.feature_columns[9:]]. *)
Definition required_cols : list string := firstn 9 feature_columns.
Definition optional_cols : list string := skipn 9 feature_columns.

(** [df[df[target].isin(valid_dispositions)]]. *)
Definition filter_dispositions (df : DataFrame) : result DataFrame :=
  if has_column df target_column then
    Ok (keep_rows (fun r =>
          match disposition r with
          | Some d => str_in d valid_dispositions
          | None => false
          end) df)
  else Raise (KeyError target_column).

(** [df[columns_to_use]]: every column asked for must be there; the others go. *)
Definition narrow_columns (df : DataFrame) : result DataFrame :=
  let columns_to_use := (feature_columns ++ [target_column])%list in
  match List.find (fun col => negb (has_column df col)) columns_to_use with
  | Some col => Raise (KeyError col)
  | None =>
      Ok {| columns := columns_to_use;
            rows := map (fun r =>
                      {| cells := filter (fun kv => str_in (fst kv) feature_columns = true) (cells r);
                         disposition := disposition r |}) (rows df) |}
  end.

(** The loop that imputes the optional columns. *)
Definition fill_optional (df : DataFrame) : DataFrame :=
  fold_left (fun df col =>
    if has_column df col then fillna col (median (column_values df col)) df
    else df) optional_cols df.

(** The block "Handle missing values". *)
Definition handle_missing_values (df : DataFrame) : DataFrame :=
  let df := dropna required_cols df in
  fill_optional df.

(** The mask [(df[col] >= lower_bound) & (df[col] <= upper_bound)] of one row;
    a comparison with NaN is false. *)
Definition within_bounds (col : string) (lower_bound upper_bound : option Q) (r : Row) : bool :=
  match cells r !! col, lower_bound, upper_bound with
  | Some v, Some lo, Some hi => Qgeb v lo && Qleb v hi
  | _, _, _ => false
  end.

(** The mask that one turn of the outlier loop computes for the column
    [col], from the quartiles of that column over the current table. *)
Definition outlier_mask (df : DataFrame) (col : string) : Row -> bool :=
  let Q1 := quantile 0.25 (column_values df col) in
  let Q3 := quantile 0.75 (column_values df col) in
  let IQR := nan2 Qminus Q3 Q1 in
  let lower_bound := nan2 Qminus Q1 (nan2 Qmult (Some 1.5%Q) IQR) in
  let upper_bound := nan2 Qplus Q3 (nan2 Qmult (Some 1.5%Q) IQR) in
  within_bounds col lower_bound upper_bound.

(** One turn of the outlier loop: [df = df[mask]]. *)
Definition remove_outliers_col (df : DataFrame) (col : string) : DataFrame :=
  if has_column df col then keep_rows (outlier_mask df col) df else df.

(** The block "Remove outliers using IQR method". *)
Definition remove_outliers (df : DataFrame) : DataFrame :=
  fold_left remove_outliers_col feature_columns df.

(** [load_and_preprocess_data], from the table that [pd.read_csv] parsed. *)
Definition load_and_preprocess_data (raw : DataFrame) : result DataFrame :=
  let* df := filter_dispositions raw in
  let* df := narrow_columns df in
  let df := handle_missing_values df in
  Ok (remove_outliers df).

(** The attributes of an [ExoplanetClassifier] that [predict] reads; [model]
    is [None] until [train_model] has run, which fits the scaler and the
    label encoder before it assigns the forest. *)
Record ExoplanetClassifier : Type := mkClassifier {
  model : option RandomForestClassifier;
  scaler : StandardScaler;
  label_encoder : LabelEncoder
}.

(** The dictionary [predict] returns. *)
Record Prediction : Type := mkPrediction {
  prediction : string;
  confidence_scores : pydict Q;
  max_confidence : Q
}.

(** The loop that fills [confidence_scores] from [probabilities[0]]. *)
Fixpoint score_classes (classes : list string) (i : nat) (probabilities : list Q)
    (confidence_scores : pydict Q) : result (pydict Q) :=
  match classes with
  | [] => Ok confidence_scores
  | class_name :: rest =>
      match probabilities !! i with
      | Some p => score_classes rest (S i) probabilities (dict_set confidence_scores class_name p)
      | None => Raise IndexError
      end
  end.

(** [predict(self, features)] on a [dict]. *)
Definition predict (self : ExoplanetClassifier) (features : gmap string Q) : result Prediction :=
  match model self with
  | None => Raise (ValueError "Model not trained yet!")
  | Some mdl =>
      let* selected := select_columns feature_columns features in
      let* features_scaled := transform (scaler self) selected in
      let* prediction := Sklearn.predict mdl features_scaled in
      let* probabilities := predict_proba mdl features_scaled in
      let* predicted_label := inverse_transform (label_encoder self) prediction in
      let* confidence_scores := score_classes (classes_ (label_encoder self)) 0 probabilities [] in
      let* max_confidence := py_max probabilities in
      Ok {| prediction := predicted_label;
            confidence_scores := confidence_scores;
            max_confidence := max_confidence |}
  end.

End Train.

(** ** backend/app.py: the routes *)

Module Routes.

Definition ALLOWED_EXTENSIONS : list string := ["csv"; "json"; "fits"].

(** [str.lower()]: the letters A to Z go to a to z.  Characters outside
    ASCII are left alone; none of them lowers to a letter of the three
    extensions. *)
Definition lower_char (c : Ascii.ascii) : Ascii.ascii :=
  let n := Ascii.nat_of_ascii c in
  if (Nat.leb 65 n && Nat.leb n 90)%bool then Ascii.ascii_of_nat (n + 32) else c.

Fixpoint lower (s : string) : string :=
  match s with
  | EmptyString => EmptyString
  | String c rest => String (lower_char c) (lower rest)
  end.

(** [filename.rsplit('.', 1)[1]]: the text after the last '.', when there is
    one ([None]: '.' is not in the name). *)
Fixpoint rsplit_dot (filename : string) : option string :=
  match filename with
  | EmptyString => None
  | String c rest =>
      match rsplit_dot rest with
      | Some ext => Some ext
      | None => if Ascii.eqb c (Ascii.ascii_of_nat 46) then Some rest else None
      end
  end.

(** [allowed_file(filename)]. *)
Definition allowed_file (filename : string) : bool :=
  match rsplit_dot filename with
  | Some ext => str_in (lower ext) ALLOWED_EXTENSIONS
  | None => false
  end.

(** A value that [request.get_json()] returns. *)
#[warnings="-register-all"]
Inductive json : Type :=
| JNull
| JBool (b : bool)
| JNumber (x : Q)
| JString (s : string)
| JArray (items : list json)
| JObject (members : gmap string json).

(** The truth value of a parsed body, as [if not data] tests it. *)
Definition truthy (data : json) : bool :=
  match data with
  | JNull => false
  | JBool b => b
  | JNumber x => negb (Qeq_bool x 0)
  | JString s => negb (String.eqb s "")
  | JArray items => match items with [] => false | _ :: _ => true end
  | JObject members => negb (Nat.eqb (size members) 0)
  end.

(** [feature in data]: a key of an object, an item of an array, a piece of a
    string; the other values are not containers. *)
Definition contains (data : json) (feature : string) : result bool :=
  match data with
  | JObject members => Ok (bool_decide (is_Some (members !! feature)))
  | JArray items =>
      Ok (existsb (fun v => match v with
                            | JString s => String.eqb s feature
                            | _ => false
                            end) items)
  | JString s => Ok (match String.index 0 feature s with Some _ => true | None => false end)
  | _ => Raise TypeError
  end.

(** [data[feature]] with a string for subscript. *)
Definition getitem (data : json) (feature : string) : result json :=
  match data with
  | JObject members =>
      match members !! feature with
      | Some v => Ok v
      | None => Raise (KeyError feature)
      end
  | _ => Raise TypeError
  end.

(** [d[k]] on a dictionary literal. *)
Fixpoint dict_lookup {V : Type} (d : pydict V) (k : string) : result V :=
  match d with
  | [] => Raise (KeyError k)
  | (k', v) :: d' => if String.eqb k' k then Ok v else dict_lookup d' k
  end.

Definition required_features : list string :=
  [ "orbital_period"; "transit_duration"; "transit_depth";
    "planetary_radius"; "equilibrium_temperature"; "insolation_flux";
    "transit_signal_to_noise"; "stellar_effective_temperature"; "stellar_radius" ].

Definition optional_features : list string :=
  [ "impact_parameter"; "disposition_score"; "stellar_surface_gravity" ].

Definition feature_mapping : pydict string :=
  [ ("orbital_period", "koi_period");
    ("transit_duration", "koi_duration");
    ("transit_depth", "koi_depth");
    ("planetary_radius", "koi_prad");
    ("equilibrium_temperature", "koi_teq");
    ("insolation_flux", "koi_insol");
    ("transit_signal_to_noise", "koi_model_snr");
    ("stellar_effective_temperature", "koi_steff");
    ("stellar_radius", "koi_srad");
    ("impact_parameter", "koi_impact");
    ("disposition_score", "koi_score");
    ("stellar_surface_gravity", "koi_slogg") ].

(** What a route returns: the status and the JSON body, which holds either
    an error message or a result with the time of the answer. *)
Inductive body : Type :=
| ErrorBody (error : string)
| SuccessBody (result : App.PredictionResult) (timestamp : string).

Record response : Type := mkResponse {
  status : nat;
  payload : body
}.

(** The double quote that the message of the route puts around a name. *)
Definition dquote : string := String (Ascii.ascii_of_nat 34) EmptyString.

Section Handler.

(** [float(s)] on a string: the number it spells, or the [ValueError]. *)
Variable float_of_string : string -> result Q.

(** [float(v)] on a JSON value. *)
Definition py_float (v : json) : result Q :=
  match v with
  | JNumber x => Ok x
  | JBool b => Ok (if b then 1%Q else 0%Q)
  | JString s => float_of_string s
  | _ => Raise TypeError
  end.

(** The loop "Check required features": it returns the response for the
    first feature that is not in [data], and otherwise stores the number
    under the name the model knows. *)
Fixpoint check_required (data : json) (todo : list string) (features : gmap string Q)
    : result (response + gmap string Q) :=
  match todo with
  | [] => Ok (inr features)
  | feature :: rest =>
      let* present := contains data feature in
      if negb present then
        Ok (inl {| status := 400;
                   payload := ErrorBody ("Required feature " ++ dquote ++ feature
                                         ++ dquote ++ " is missing") |})
      else
        let* v := getitem data feature in
        let* x := py_float v in
        let* key := dict_lookup feature_mapping feature in
        check_required data rest (<[key := x]> features)
  end.

(** The loop "Add optional features": a feature that is absent or null is
    passed over. *)
Fixpoint add_optional (data : json) (todo : list string) (features : gmap string Q)
    : result (gmap string Q) :=
  match todo with
  | [] => Ok features
  | feature :: rest =>
      let* present := contains data feature in
      if present then
        let* v := getitem data feature in
        match v with
        | JNull => add_optional data rest features
        | _ =>
            let* v' := getitem data feature in
            let* x := py_float v' in
            let* key := dict_lookup feature_mapping feature in
            add_optional data rest (<[key := x]> features)
        end
      else add_optional data rest features
  end.

(** The part of [predict_exoplanet] that builds [features] from the body. *)
Definition extract_features (data : json) : result (response + gmap string Q) :=
  if negb (truthy data) then
    Ok (inl {| status := 400; payload := ErrorBody "No input data provided" |})
  else
    let* checked := check_required data required_features ∅ in
    match checked with
    | inl early => Ok (inl early)
    | inr features =>
        let* features := add_optional data optional_features features in
        Ok (inr features)
    end.

(** The two [except] clauses of the route. *)
Definition handle_exceptions (r : result response) : response :=
  match r with
  | Ok resp => resp
  | Raise (ValueError msg) => {| status := 400; payload := ErrorBody msg |}
  | Raise _ => {| status := 500; payload := ErrorBody "Internal server error" |}
  end.

(** [predict_exoplanet()], from the parsed body [data], the global
    [predictor] and the clock.  [store_prediction] catches what it raises
    and returns nothing: the row it writes has no part in the response. *)
Definition predict_exoplanet (predictor : App.ExoplanetPredictor) (now : string)
    (data : json) : response :=
  handle_exceptions
    (let* extracted := extract_features data in
     match extracted with
     | inl early => Ok early
     | inr features =>
         let* result := App.predict predictor features in
         Ok {| status := 200; payload := SuccessBody result now |}
     end).

End Handler.

End Routes.

(** ** backend/train_model.py: save_model *)

Module Save.

(** A file that [joblib.dump] wrote; it is never read as text. *)
Definition pickled (o : pyobj) : App.file :=
  {| App.unpickled := Some o; App.text_lines := None |}.

(** The file of feature names: one name and a line feed per line. *)
Definition names_file (names : list string) : App.file :=
  {| App.unpickled := None;
     App.text_lines := Some (map (fun feature => feature ++ newline) names) |}.

(** [save_model(self, model_dir)]: the four files, written in this order.
    On a classifier that was not trained [self.model] is Python's [None] and
    the first file holds the pickled [None], an object outside [pyobj]: the
    embedding stops there ([None]). *)
Definition save_model (self : Train.ExoplanetClassifier) (model_dir : string)
    (fs : gmap string App.file) : option (gmap string App.file) :=
  match Train.model self with
  | None => None
  | Some mdl =>
      let fs := <[App.path_join model_dir "exoplanet_classifier.pkl" := pickled (PyForest mdl)]> fs in
      let fs := <[App.path_join model_dir "feature_scaler.pkl" := pickled (PyScaler (Train.scaler self))]> fs in
      let fs := <[App.path_join model_dir "label_encoder.pkl" := pickled (PyEncoder (Train.label_encoder self))]> fs in
      let fs := <[App.path_join model_dir "feature_names.txt" := names_file Train.feature_columns]> fs in
      Some fs
  end.

End Save.

(** ** Vocabulary of the statements *)

(** The two kinds of error of the predictor; both are a [ValueError] in
    [app.py], told apart by their message. *)
Definition ModelNotLoaded : exn :=
  ValueError "Model not loaded. Please train the model first.".

Definition missing_message (col : string) : string :=
  "Required feature '" ++ col ++ "' is missing".

Definition ValidationError (col : string) : exn := ValueError (missing_message col).

(** The message [msg] names the feature [col]: [col in msg]. *)
Definition mentions (col msg : string) : bool :=
  match String.index 0 col msg with
  | Some _ => true
  | None => false
  end.

(** The two verdicts. *)
Definition CONFIRMED_CANDIDATE : string := "CONFIRMED/CANDIDATE".
Definition FALSE_POSITIVE : string := "FALSE POSITIVE".

(** The classes of the label encoder fitted on the three dispositions, in
    the sorted order in which [LabelEncoder] keeps them. *)
Definition persisted_classes : list string := ["CANDIDATE"; "CONFIRMED"; "FALSE POSITIVE"].

(** The predictor in its Ready state: the four artifacts of a training run
    are loaded, the feature names being those [save_model] wrote. *)
Definition ready (mdl : RandomForestClassifier) (sc : StandardScaler) (enc : LabelEncoder)
    : App.ExoplanetPredictor :=
  {| App.model := Some (PyForest mdl);
     App.scaler := Some (PyScaler sc);
     App.label_encoder := Some (PyEncoder enc);
     App.feature_columns := Some Train.feature_columns |}.

(** The artifacts come from one training run on the twelve features and the
    three dispositions. *)
Definition consistent (mdl : RandomForestClassifier) (sc : StandardScaler) (enc : LabelEncoder) : Prop :=
  length (params sc) = 12%nat /\ n_features_in_ mdl = 12%nat /\ classes_ enc = persisted_classes.

(** The cell of a feature in the input, or the default 0.0 of an optional
    feature that is absent. *)
Definition cell_or_default (features : gmap string Q) (col : string) : option Q :=
  match features !! col with
  | Some v => Some v
  | None => if str_in col Train.optional_cols then Some 0%Q else None
  end.

(** The completed row in the order of [cols], or the error for the first
    required feature that is absent. *)
Fixpoint gather (cols : list string) (features : gmap string Q) : result (list Q) :=
  match cols with
  | [] => Ok []
  | col :: rest =>
      match cell_or_default features col with
      | Some v => let* vs := gather rest features in Ok (v :: vs)
      | None => Raise (ValidationError col)
      end
  end.

(** The twelve values of an input that has the nine required features, in
    the persisted order, and their standardization. *)
Definition completed_row (features : gmap string Q) : list Q :=
  map (fun col => default 0%Q (cell_or_default features col)) Train.feature_columns.

Definition scaled_row (sc : StandardScaler) (features : gmap string Q) : list Q :=
  zip_with (fun v ms => ((v - fst ms) / snd ms)%Q) (completed_row features) (params sc).

(** Every required feature has a value in the input. *)
Definition has_required (features : gmap string Q) : Prop :=
  Forall (fun col => is_Some (features !! col)) Train.required_cols.

(** Every one of the twelve features has a value in the input. *)
Definition has_all_features (features : gmap string Q) : Prop :=
  Forall (fun col => is_Some (features !! col)) Train.feature_columns.

(** The sum of the values of a dictionary of scores. *)
Definition dict_sum (d : pydict Q) : Q := fold_right Qplus 0%Q (values d).

(** The four paths [load_model] looks for. *)
Definition artifact_paths : list string :=
  [ "models/exoplanet_classifier.pkl"; "models/feature_scaler.pkl";
    "models/label_encoder.pkl"; "models/feature_names.txt" ].

(** Objects for the examples: a forest that answers every row with the same
    three shares, the identity scaling of twelve features, the encoder of
    the three dispositions, and an input with the nine required features. *)
Definition example_forest (p_candidate p_confirmed p_false_positive : Q) : RandomForestClassifier :=
  {| n_features_in_ := 12; votes := fun _ => [p_candidate; p_confirmed; p_false_positive] |}.

Definition example_scaler : StandardScaler :=
  {| params := repeat (0%Q, 1%Q) 12 |}.

Definition example_encoder : LabelEncoder := {| classes_ := persisted_classes |}.

Definition example_required : gmap string Q :=
  list_to_map (map (fun col => (col, 1%Q)) Train.required_cols).

Definition example_all : gmap string Q :=
  list_to_map (map (fun col => (col, 1%Q)) Train.feature_columns).

(** A model directory in which the label encoder was never written. *)
Definition example_pickle (o : pyobj) : App.file :=
  {| App.unpickled := Some o; App.text_lines := None |}.

Definition example_fs_without_encoder : gmap string App.file :=
  <["models/exoplanet_classifier.pkl" := example_pickle (PyForest (example_forest (1#4) (1#4) (1#2)))]>
  (<["models/feature_scaler.pkl" := example_pickle (PyScaler example_scaler)]>
  (<["models/feature_names.txt" :=
       {| App.unpickled := None;
          App.text_lines := Some (map (fun col => col ++ newline) Train.feature_columns) |}]> ∅)).

(** The same directory after the label encoder was written too. *)
Definition example_fs : gmap string App.file :=
  <["models/label_encoder.pkl" := example_pickle (PyEncoder example_encoder)]>
    example_fs_without_encoder.



(** The outlier filter run on every column against the same, unfiltered
    table: the reading that the sequential loop is not. *)
Definition remove_outliers_in_parallel (df : DataFrame) : DataFrame :=
  keep_rows (fun r =>
    forallb (fun col => Train.outlier_mask df col r) Train.feature_columns) df.

(** The row has a value in each of the nine required columns. *)
Definition complete_required (r : Row) : Prop :=
  Forall (fun col => is_Some (cells r !! col)) Train.required_cols.

(** The row [r'] is the row [r] with its missing optional cells set to the
    median of their column over the table [survivors]; a column without any
    value has no median and its cells stay missing. *)
Definition imputed_from (survivors : DataFrame) (r r' : Row) : Prop :=
  disposition r' = disposition r
  /\ forall col,
       cells r' !! col =
       match cells r !! col with
       | Some v => Some v
       | None => if str_in col Train.optional_cols
                 then median (column_values survivors col) else None
       end.

(** A table of the training columns with the given rows. *)
Definition example_table (rs : list Row) : DataFrame :=
  {| columns := Train.feature_columns ++ [Train.target_column]; rows := rs |}.

(** A confirmed planet whose features are all 0, but for the given cells. *)
Definition example_row (given : list (string * Q)) : Row :=
  {| cells := list_to_map (given ++ map (fun col => (col, 0%Q)) Train.feature_columns);
     disposition := Some "CONFIRMED" |}.

(** Seven rows that differ in their orbital period only. *)
Definition example_periods : DataFrame :=
  example_table (map (fun v => example_row [("koi_period", v)])
                   [1%Q; 2%Q; 3%Q; 4%Q; 5%Q; 10%Q; 30%Q]).

(** The same seven rows with a transit duration each. *)
Definition example_periods_durations : DataFrame :=
  example_table (map (fun pd => example_row [("koi_period", fst pd); ("koi_duration", snd pd)])
                   [(1%Q, 1%Q); (2%Q, 2%Q); (3%Q, 3%Q); (4%Q, 4%Q); (5%Q, 5%Q);
                    (10%Q, 9%Q); (30%Q, 100%Q)]).

(** Three rows: one complete, one without its impact parameter, and one
    without its orbital period whose impact parameter is 100. *)
Definition example_missing : DataFrame :=
  example_table
    [ example_row [("koi_impact", 1%Q)];
      {| cells := delete "koi_impact" (cells (example_row []));
         disposition := Some "CANDIDATE" |};
      {| cells := delete "koi_period" (cells (example_row [("koi_impact", 100%Q)]));
         disposition := Some "CANDIDATE" |} ].

(** A trained classifier for the examples. *)
Definition example_classifier (p_candidate p_confirmed p_false_positive : Q)
    : Train.ExoplanetClassifier :=
  {| Train.model := Some (example_forest p_candidate p_confirmed p_false_positive);
     Train.scaler := example_scaler;
     Train.label_encoder := example_encoder |}.

(** ['.' in s]. *)
Fixpoint has_dot (s : string) : bool :=
  match s with
  | EmptyString => false
  | String c rest => (Ascii.eqb c (Ascii.ascii_of_nat 46) || has_dot rest)%bool
  end.

(** A file that exists and that neither reader can read. *)
Definition unreadable : App.file := {| App.unpickled := None; App.text_lines := None |}.

(** The model directory of the examples with a scaler file that
    [joblib.load] cannot read. *)
Definition example_fs_corrupt_scaler : gmap string App.file :=
  <["models/feature_scaler.pkl" := unreadable]> example_fs.

(** A row of the cleaned table: its disposition is one of the three, and it
    has a value in each of the twelve feature columns and no other cell. *)
Definition clean_row (r : Row) : Prop :=
  (exists d, disposition r = Some d /\ d ∈ Train.valid_dispositions)
  /\ forall col, is_Some (cells r !! col) <-> col ∈ Train.feature_columns.

(** The columns [load_and_preprocess_data] asks of the table it reads. *)
Definition needed_columns : list string :=
  Train.feature_columns ++ [Train.target_column].

(** A table as [pd.read_csv] may give it: an extra column, a row without
    disposition, a row with an unknown one, a row without radius, and five
    good rows. *)
Definition example_raw : DataFrame :=
  {| columns := "kepid"%string :: needed_columns;
     rows :=
       [ {| cells := <["kepid"%string := 1%Q]> (cells (example_row [])); disposition := None |};
         {| cells := cells (example_row []); disposition := Some "NOT DISPOSITIONED"%string |};
         {| cells := delete "koi_prad"%string (cells (example_row []));
            disposition := Some "CONFIRMED"%string |};
         {| cells := <["kepid"%string := 2%Q]> (cells (example_row [("koi_period"%string, 1%Q)]));
            disposition := Some "CONFIRMED"%string |};
         {| cells := delete "koi_score"%string (cells (example_row [("koi_period"%string, 2%Q)]));
            disposition := Some "CANDIDATE"%string |};
         example_row [("koi_period"%string, 3%Q)];
         {| cells := cells (example_row [("koi_period"%string, 2%Q)]);
            disposition := Some "FALSE POSITIVE"%string |};
         example_row [("koi_period"%string, 50%Q)] ] |}.

(** The number that [float] makes of a member of the body; [None] when the
    member is absent or [float] raises on it. *)
Definition converted (float_of_string : string -> result Q)
    (members : gmap string Routes.json) (feature : string) : option Q :=
  match members !! feature with
  | Some v =>
      match Routes.py_float float_of_string v with
      | Ok x => Some x
      | Raise _ => None
      end
  | None => None
  end.

(** An optional member that the route can use: absent, null, or a value
    that [float] accepts. *)
Definition usable_optional (float_of_string : string -> result Q)
    (members : gmap string Routes.json) (feature : string) : Prop :=
  members !! feature = None
  \/ members !! feature = Some Routes.JNull
  \/ is_Some (converted float_of_string members feature).

(** The features that the route hands to the predictor: each front-end name
    whose member has a number, under the name the model knows. *)
Definition expected_features (float_of_string : string -> result Q)
    (members : gmap string Routes.json) : gmap string Q :=
  fold_left (fun acc feature =>
               match Routes.dict_lookup Routes.feature_mapping feature,
                     converted float_of_string members feature with
               | Ok key, Some x => <[key := x]> acc
               | _, _ => acc
               end)
    (Routes.required_features ++ Routes.optional_features) ∅.

(** A member that is null counts as a member that is absent. *)
Definition drop_null (o : option Routes.json) : option Routes.json :=
  match o with
  | Some Routes.JNull => None
  | _ => o
  end.



(** A [float] of strings for the examples: it accepts no string. *)
Definition example_float_of_string (s : string) : result Q :=
  Raise (ValueError "could not convert string to float").

(** A body with the nine required members, a null member, a member spelled
    as a boolean, and two members the route does not know. *)
Definition example_body : gmap string Routes.json :=
  <["session_id"%string := Routes.JString "abc"]>
  (<["comment"%string := Routes.JArray [Routes.JNull]]>
  (<["impact_parameter"%string := Routes.JNull]>
  (<["disposition_score"%string := Routes.JBool true]>
  (list_to_map (map (fun feature => (feature, Routes.JNumber 1%Q)) Routes.required_features))))).

(** The features the route builds from the body of the examples. *)
Definition example_features : gmap string Q :=
  expected_features example_float_of_string example_body.

(** The value that [quantile] interpolates in the sorted values: the body
    of its second branch. *)
Definition interpolate (q : Q) (sorted : list Q) : Q :=
  let n := length sorted in
  let h := (q * inject_Z (Z.of_nat (n - 1)))%Q in
  let lo := Z.to_nat (Qfloor h) in
  let hi := Nat.min (S lo) (n - 1) in
  let frac := (h - inject_Z (Qfloor h))%Q in
  (nth lo sorted 0%Q + frac * (nth hi sorted 0%Q - nth lo sorted 0%Q))%Q.

(** The row has a value in each of the twelve feature columns. *)
Definition complete_row (r : Row) : Prop :=
  Forall (fun col => is_Some (cells r !! col)) Train.feature_columns.

(** * Properties *)

Local Open Scope list_scope.
Local Open Scope Q_scope.

(** ** Comparisons and the greatest item *)

Lemma Qgtb_true (a b : Q) : Qgtb a b = true <-> b < a.
Proof.
  unfold Qgtb. rewrite Qgt_alt. destruct (a ?= b); split; congruence.
Qed.

Lemma Qgtb_false (a b : Q) : Qgtb a b = false <-> a <= b.
Proof.
  unfold Qgtb. rewrite Qle_alt. destruct (a ?= b); split; congruence.
Qed.

Lemma Qgeb_true (a b : Q) : Qgeb a b = true <-> b <= a.
Proof. unfold Qgeb. apply Qle_bool_iff. Qed.

Lemma Qleb_true (a b : Q) : Qleb a b = true <-> a <= b.
Proof. unfold Qleb. apply Qle_bool_iff. Qed.

(** The running maximum of [py_max]: an item of the sequence, and an upper
    bound of all of them. *)
Lemma fold_max_spec (rest : list Q) (x : Q) :
  let m := fold_left (fun m y => if Qgtb y m then y else m) rest x in
  In m (x :: rest) /\ forall y, In y (x :: rest) -> y <= m.
Proof.
  revert x. induction rest as [|z rest IH]; intros x; cbn.
  - split; [now left|]. intros y [<-|[]]. apply Qle_refl.
  - destruct (Qgtb z x) eqn:E.
    + apply Qgtb_true in E. destruct (IH z) as [Hin Hub]. split.
      * right. exact Hin.
      * intros y [<-|Hy].
        -- apply Qle_trans with z; [now apply Qlt_le_weak|]. apply Hub. now left.
        -- apply Hub. exact Hy.
    + apply Qgtb_false in E. destruct (IH x) as [Hin Hub]. split.
      * destruct Hin as [<-|Hin]; [now left|]. right. now right.
      * intros y [<-|[<-|Hy]].
        -- apply Hub. now left.
        -- apply Qle_trans with x; [exact E|]. apply Hub. now left.
        -- apply Hub. now right.
Qed.

Lemma py_max_spec (xs : list Q) (m : Q) :
  py_max xs = Ok m -> In m xs /\ forall y, In y xs -> y <= m.
Proof.
  destruct xs as [|x rest]; cbn; [discriminate|].
  intros [= <-]. apply fold_max_spec.
Qed.

(** [argmax] and [py_max] walk the sequence with the same comparisons:
    the item at the index of the one is the value of the other. *)
Lemma argmax_from_fold_max (rest pre : list Q) (best : nat) (m : Q) :
  pre !! best = Some m ->
  (pre ++ rest) !! argmax_from rest (length pre) best m
  = Some (fold_left (fun m y => if Qgtb y m then y else m) rest m).
Proof.
  revert pre best m. induction rest as [|z rest IH]; intros pre best m Hbest; cbn.
  - rewrite app_nil_r. exact Hbest.
  - replace (pre ++ z :: rest)%list with ((pre ++ [z]) ++ rest)%list
      by (rewrite <- app_assoc; reflexivity).
    replace (S (length pre)) with (length (pre ++ [z])%list)
      by (rewrite length_app; cbn; lia).
    destruct (Qgtb z m).
    + replace (length (pre ++ [z])%list) with (S (length pre)) at 2
        by (rewrite length_app; cbn; lia).
      apply IH. rewrite lookup_app_r by lia.
      replace (length pre - length pre)%nat with 0%nat by lia. reflexivity.
    + apply IH. rewrite lookup_app_l; [exact Hbest|].
      apply lookup_lt_Some in Hbest. exact Hbest.
Qed.

Lemma argmax_py_max (xs : list Q) (i : nat) :
  argmax xs = Ok i -> exists m, py_max xs = Ok m /\ xs !! i = Some m.
Proof.
  destruct xs as [|x rest]; cbn; [discriminate|].
  intros [= <-]. eexists. split; [reflexivity|].
  apply (argmax_from_fold_max rest [x] 0 x). reflexivity.
Qed.

Lemma argmax_total (xs : list Q) : xs <> [] -> exists i, argmax xs = Ok i.
Proof. destruct xs; [congruence|]. intros _. eexists. reflexivity. Qed.

(** ** The predictor of app.py *)

Section Completion.

Implicit Types (features : gmap string Q) (cols : list string).

Lemma gather_ext cols features1 features2 :
  (forall col, col ∈ cols -> cell_or_default features1 col = cell_or_default features2 col) ->
  gather cols features1 = gather cols features2.
Proof.
  induction cols as [|col rest IH]; intros H; cbn; [reflexivity|].
  rewrite (H col) by apply list_elem_of_here.
  rewrite IH; [reflexivity|]. intros c Hc. apply H. now apply list_elem_of_further.
Qed.

Lemma cell_or_default_insert features col c :
  features !! col = None ->
  str_in col ["koi_impact"; "koi_score"; "koi_slogg"]%string = true ->
  cell_or_default (<[col := 0]> features) c = cell_or_default features c.
Proof.
  intros Hnone Hopt. unfold cell_or_default.
  destruct (decide (col = c)) as [->|Hne].
  - rewrite lookup_insert_eq, Hnone.
    change Train.optional_cols with ["koi_impact"; "koi_score"; "koi_slogg"]%string.
    now rewrite Hopt.
  - now rewrite lookup_insert_ne.
Qed.

(** The loop either stops at the first required feature that is absent, or
    ends with a frame that holds, for the columns it went through, the input
    cell or the default. *)
Lemma ensure_columns_gather cols features :
  match App.ensure_columns cols features with
  | Ok df => exists vs, gather cols features = Ok vs
             /\ forall col, df !! col = if decide (col ∈ cols)
                                        then cell_or_default features col
                                        else features !! col
  | Raise e => gather cols features = Raise e
  end.
Proof.
  revert features.
  induction cols as [|col rest IH]; intros features; cbn [App.ensure_columns gather].
  - exists []. split; [reflexivity|]. intros col. now destruct (decide _).
  - destruct (features !! col) as [v|] eqn:Hcol.
    + assert (Hcd : cell_or_default features col = Some v)
        by (unfold cell_or_default; now rewrite Hcol).
      rewrite Hcd. specialize (IH features).
      destruct (App.ensure_columns rest features) as [df|e].
      * destruct IH as (vs & Hvs & Hdf). exists (v :: vs). rewrite Hvs.
        split; [reflexivity|]. intros c. rewrite Hdf.
        destruct (decide (c ∈ rest)) as [Hin|Hnin].
        -- rewrite decide_True by now apply list_elem_of_further. reflexivity.
        -- destruct (decide (col = c)) as [<-|Hne].
           ++ rewrite decide_True by apply list_elem_of_here. now rewrite Hcd.
           ++ rewrite decide_False by (intros [<-|?]%elem_of_cons; [now apply Hne|now apply Hnin]). reflexivity.
      * rewrite IH. reflexivity.
    + destruct (str_in col ["koi_impact"; "koi_score"; "koi_slogg"]%string) eqn:Hopt.
      * assert (Hcd : cell_or_default features col = Some 0).
        { unfold cell_or_default. rewrite Hcol.
          change Train.optional_cols with ["koi_impact"; "koi_score"; "koi_slogg"]%string.
          now rewrite Hopt. }
        rewrite Hcd. specialize (IH (<[col := 0]> features)).
        rewrite (gather_ext rest (<[col := 0]> features) features) in IH
          by (intros c _; now apply cell_or_default_insert).
        destruct (App.ensure_columns rest (<[col := 0]> features)) as [df|e].
        -- destruct IH as (vs & Hvs & Hdf). exists (0 :: vs). rewrite Hvs.
           split; [reflexivity|]. intros c. rewrite Hdf.
           destruct (decide (c ∈ rest)) as [Hin|Hnin].
           ++ rewrite decide_True by now apply list_elem_of_further. now apply cell_or_default_insert.
           ++ destruct (decide (col = c)) as [<-|Hne].
              ** rewrite decide_True by apply list_elem_of_here. rewrite lookup_insert_eq.
                 now rewrite Hcd.
              ** rewrite decide_False by (intros [<-|?]%elem_of_cons; [now apply Hne|now apply Hnin]). now rewrite lookup_insert_ne.
        -- rewrite IH. reflexivity.
      * assert (Hcd : cell_or_default features col = None).
        { unfold cell_or_default. rewrite Hcol.
          change Train.optional_cols with ["koi_impact"; "koi_score"; "koi_slogg"]%string.
          now rewrite Hopt. }
        rewrite Hcd. reflexivity.
Qed.

Lemma select_columns_gather cols features (df : gmap string Q) vs :
  (forall col, col ∈ cols -> df !! col = cell_or_default features col) ->
  gather cols features = Ok vs ->
  select_columns cols df = Ok vs.
Proof.
  revert vs. induction cols as [|col rest IH]; intros vs Hdf; cbn; [easy|].
  rewrite (Hdf col) by apply list_elem_of_here.
  destruct (cell_or_default features col) as [v|]; [|discriminate].
  destruct (gather rest features) as [ws|e] eqn:Hg; cbn; [|discriminate].
  intros [= <-]. rewrite (IH ws); [reflexivity| |reflexivity].
  intros c Hc. apply Hdf. now apply list_elem_of_further.
Qed.

(** Completing the frame and selecting the columns is [gather]. *)
Lemma complete_and_select cols features :
  (let* df := App.ensure_columns cols features in select_columns cols df)
  = gather cols features.
Proof.
  pose proof (ensure_columns_gather cols features) as H.
  destruct (App.ensure_columns cols features) as [df|e]; cbn.
  - destruct H as (vs & Hvs & Hdf). rewrite Hvs.
    apply select_columns_gather with features; [|exact Hvs].
    intros c Hc. rewrite Hdf. now rewrite decide_True.
  - now rewrite H.
Qed.

End Completion.

Lemma str_in_elem_of (k : string) (l : list string) : str_in k l = true <-> k ∈ l.
Proof.
  unfold str_in. induction l as [|x l IH]; cbn.
  - split; [discriminate|]. intros H. inversion H.
  - rewrite orb_true_iff, IH, elem_of_cons, String.eqb_eq. tauto.
Qed.

(** [predict] in any state of the predictor: the input is read through
    [gather] only. *)
Lemma predict_unfold (self : App.ExoplanetPredictor) (features : gmap string Q) :
  App.predict self features =
  match App.model self with
  | None => Raise ModelNotLoaded
  | Some _ =>
      let* cols := match App.feature_columns self with
                   | Some cols => Ok cols
                   | None => Raise TypeError
                   end in
      let* features_selected := gather cols features in
      let* sc := App.as_scaler (App.scaler self) in
      let* features_scaled := transform sc features_selected in
      let* mdl := App.as_forest (App.model self) in
      let* prediction := Sklearn.predict mdl features_scaled in
      let* probabilities := predict_proba mdl features_scaled in
      let* enc := App.as_encoder (App.label_encoder self) in
      let* predicted_label := inverse_transform enc prediction in
      App.decide_verdict (classes_ enc) probabilities cols
  end.
Proof.
  unfold App.predict. destruct (App.model self); [|reflexivity].
  destruct (App.feature_columns self) as [cols|]; [|reflexivity].
  cbn [Py.bind]. rewrite <- complete_and_select.
  destruct (App.ensure_columns cols features); reflexivity.
Qed.

Lemma gather_all_present (cols : list string) (features : gmap string Q) :
  (forall col, col ∈ cols -> is_Some (cell_or_default features col)) ->
  gather cols features = Ok (map (fun col => default 0 (cell_or_default features col)) cols).
Proof.
  induction cols as [|col rest IH]; intros H; cbn [gather map]; [reflexivity|].
  destruct (H col) as [v Hv]; [apply list_elem_of_here|]. rewrite Hv, IH; [reflexivity|].
  intros c Hc. apply H. now apply list_elem_of_further.
Qed.

Lemma has_required_cell (features : gmap string Q) (col : string) :
  has_required features -> col ∈ Train.feature_columns ->
  is_Some (cell_or_default features col).
Proof.
  intros Hreq Hcol. unfold cell_or_default.
  destruct (features !! col) as [v|] eqn:E; [eauto|].
  change Train.feature_columns with (Train.required_cols ++ Train.optional_cols) in Hcol.
  apply elem_of_app in Hcol as [Hcol|Hcol].
  - unfold has_required in Hreq. rewrite Forall_forall in Hreq.
    apply Hreq in Hcol. rewrite E in Hcol. destruct Hcol as [? [=]].
  - apply str_in_elem_of in Hcol. rewrite Hcol. eauto.
Qed.

Lemma gather_completed (features : gmap string Q) :
  has_required features ->
  gather Train.feature_columns features = Ok (completed_row features).
Proof.
  intros H. apply gather_all_present. intros col. now apply has_required_cell.
Qed.

Lemma length_completed_row (features : gmap string Q) :
  length (completed_row features) = 12%nat.
Proof. unfold completed_row. now rewrite length_map. Qed.

Lemma length_scaled_row (sc : StandardScaler) (features : gmap string Q) :
  length (params sc) = 12%nat -> length (scaled_row sc features) = 12%nat.
Proof.
  intros H. unfold scaled_row.
  rewrite length_zip_with, length_completed_row, H. reflexivity.
Qed.

(** The greatest of three shares has an index among the three classes. *)
Lemma argmax_three (a b c : Q) :
  exists i, argmax [a; b; c] = Ok i /\ (i < 3)%nat.
Proof.
  cbn. destruct (Qgtb b a); cbn; [destruct (Qgtb c b)|destruct (Qgtb c a)];
    eexists; (split; [reflexivity|lia]).
Qed.



Lemma required_not_optional (col : string) :
  col ∈ Train.required_cols -> str_in col Train.optional_cols = false.
Proof.
  intros H. cbv [Train.required_cols Train.feature_columns firstn] in H.
  repeat (apply elem_of_cons in H as [->|H]; [reflexivity|]).
  inversion H.
Qed.

Lemma required_cell (features : gmap string Q) (col : string) :
  col ∈ Train.required_cols -> cell_or_default features col = features !! col.
Proof.
  intros H. unfold cell_or_default. rewrite (required_not_optional _ H).
  now destruct (features !! col).
Qed.

Lemma required_mentioned (col : string) :
  col ∈ Train.required_cols -> mentions col (missing_message col) = true.
Proof.
  intros H. cbv [Train.required_cols Train.feature_columns firstn] in H.
  repeat (apply elem_of_cons in H as [->|H]; [vm_compute; reflexivity|]).
  inversion H.
Qed.

Lemma gather_app_raise (cols1 cols2 : list string) (features : gmap string Q) (e : exn) :
  gather cols1 features = Raise e -> gather (cols1 ++ cols2) features = Raise e.
Proof.
  induction cols1 as [|col rest IH]; cbn [gather app]; [discriminate|].
  destruct (cell_or_default features col); [|easy].
  destruct (gather rest features) as [vs|e'] eqn:E; cbn [Py.bind]; [discriminate|].
  intros [= ->]. rewrite IH; reflexivity.
Qed.

(** [gather] stops at the first column without a value. *)
Lemma gather_first_missing (cols : list string) (features : gmap string Q) (f : string) :
  f ∈ cols -> cell_or_default features f = None ->
  exists pre g post,
    cols = pre ++ g :: post
    /\ Forall (fun h => is_Some (cell_or_default features h)) pre
    /\ cell_or_default features g = None
    /\ gather cols features = Raise (ValidationError g).
Proof.
  induction cols as [|col rest IH]; intros Hin Hf; [inversion Hin|].
  destruct (cell_or_default features col) as [v|] eqn:Hcol.
  - apply elem_of_cons in Hin as [->|Hin]; [congruence|].
    destruct (IH Hin Hf) as (pre & g & post & -> & Hpre & Hg & Hraise).
    exists (col :: pre), g, post. split_and!; [reflexivity| |exact Hg|].
    + apply Forall_cons. split; [cbn beta; rewrite Hcol; eauto|exact Hpre].
    + cbn [gather app]. rewrite Hcol, Hraise. reflexivity.
  - exists [], col, rest. split_and!; [reflexivity|apply Forall_nil; exact I|exact Hcol|].
    cbn [gather app]. now rewrite Hcol.
Qed.

Lemma artifact_absent_not_all_exist (fs : gmap string App.file) (path : string) :
  path ∈ artifact_paths -> fs !! path = None ->
  forallb (App.path_exists fs) artifact_paths = false.
Proof.
  intros Hin Hnone. apply not_true_iff_false. rewrite forallb_forall.
  intros Hall. apply list_elem_of_In in Hin. specialize (Hall path Hin).
  unfold App.path_exists in Hall. apply bool_decide_eq_true in Hall.
  rewrite Hnone in Hall. destruct Hall as [? [=]].
Qed.

(** ** The claims on the predictor *)



Lemma example_consistent (a b c : Q) :
  consistent (example_forest a b c) example_scaler example_encoder.
Proof. repeat split. Defined.




(** C3, as stated, fails: an input that lacks a required feature may lack an
    earlier one as well, and the error then names the earlier one.  On the
    empty input the error names koi_period, not koi_duration. *)
Lemma predict_missing_names_first_only :
  ~ (forall (f : string) (features : gmap string Q),
       f ∈ Train.required_cols -> features !! f = None ->
       exists msg,
         App.predict (ready (example_forest (1#4) (1#4) (1#2)) example_scaler example_encoder)
           features = Raise (ValueError msg)
         /\ mentions f msg = true).
Proof.
  intros H.
  destruct (H "koi_duration"%string ∅) as (msg & Hraise & Hnames).
  - cbv [Train.required_cols Train.feature_columns firstn]. apply list_elem_of_further, list_elem_of_here.
  - apply lookup_empty.
  - vm_compute in Hraise. injection Hraise as <-. vm_compute in Hnames. discriminate.
Qed.

(** C3 (a missing required feature is an error), amended.  On a Ready
    predictor, an input that lacks a required feature [f] makes [predict]
    raise the validation error that names the first required feature, in
    the order of the schema, that the input lacks; that feature is [f]
    itself as soon as the other required features are there. *)
Theorem predict_missing_required mdl sc enc (features : gmap string Q) (f : string) :
  f ∈ Train.required_cols ->
  features !! f = None ->
  exists pre g post,
    Train.required_cols = pre ++ g :: post
    /\ Forall (fun h => is_Some (features !! h)) pre
    /\ features !! g = None
    /\ App.predict (ready mdl sc enc) features = Raise (ValidationError g)
    /\ mentions g (missing_message g) = true
    /\ ((forall h, h ∈ Train.required_cols -> h <> f -> is_Some (features !! h)) -> g = f).
Proof.
  intros Hf Hnone.
  destruct (gather_first_missing Train.required_cols features f Hf) as
    (pre & g & post & Hsplit & Hpre & Hg & Hraise).
  { now rewrite required_cell. }
  assert (Hgin : g ∈ Train.required_cols) by (rewrite Hsplit; apply elem_of_app; right; apply list_elem_of_here).
  rewrite (required_cell _ _ Hgin) in Hg.
  exists pre, g, post. split_and!.
  - exact Hsplit.
  - rewrite Forall_forall in *. intros h Hh.
    rewrite <- required_cell; [now apply Hpre|]. rewrite Hsplit. apply elem_of_app. now left.
  - exact Hg.
  - rewrite predict_unfold. cbn [ready App.model App.feature_columns Py.bind].
    change Train.feature_columns with (Train.required_cols ++ Train.optional_cols).
    now rewrite (gather_app_raise _ _ _ _ Hraise).
  - now apply required_mentioned.
  - intros Hothers. destruct (decide (g = f)) as [|Hne]; [assumption|].
    destruct (Hothers g Hgin Hne) as [v Hv]. congruence.
Qed.

(** Only koi_depth is omitted: the error names koi_depth. *)
Lemma predict_missing_required_witness :
  exists pre g post,
    Train.required_cols = pre ++ g :: post
    /\ Forall (fun h => is_Some (delete "koi_depth"%string example_required !! h)) pre
    /\ delete "koi_depth"%string example_required !! g = None
    /\ App.predict (ready (example_forest (1#4) (1#4) (1#2)) example_scaler example_encoder)
         (delete "koi_depth"%string example_required) = Raise (ValidationError g)
    /\ mentions g (missing_message g) = true
    /\ ((forall h, h ∈ Train.required_cols -> h <> "koi_depth"%string ->
           is_Some (delete "koi_depth"%string example_required !! h))
        -> g = "koi_depth"%string).
Proof.
  apply (predict_missing_required (example_forest (1#4) (1#4) (1#2)) example_scaler
           example_encoder (delete "koi_depth"%string example_required) "koi_depth"%string).
  - vm_compute. do 2 apply list_elem_of_further. apply list_elem_of_here.
  - vm_compute. reflexivity.
Defined.

(** C7 (an optional feature left out is the same as 0.0).  In any state of
    the predictor, and so on a Ready one, an input without the optional
    feature [k] and the same input with [k] set to 0.0 give the same outcome
    of [predict]: the same result, field by field, or the same error. *)
Theorem predict_optional_default (self : App.ExoplanetPredictor)
    (features : gmap string Q) (k : string) :
  k ∈ Train.optional_cols ->
  features !! k = None ->
  App.predict self (<[k := 0]> features) = App.predict self features.
Proof.
  intros Hk Hnone. rewrite !predict_unfold.
  destruct (App.model self); [|reflexivity].
  destruct (App.feature_columns self) as [cols|]; [|reflexivity].
  cbn [Py.bind].
  rewrite (gather_ext cols (<[k := 0]> features) features); [reflexivity|].
  intros c _. apply cell_or_default_insert; [exact Hnone|].
  now apply str_in_elem_of.
Qed.

(** koi_score left out, or given as 0.0: the same result, which is returned. *)
Lemma predict_optional_default_witness :
  App.predict (ready (example_forest (1#5) (1#2) (3#10)) example_scaler example_encoder)
    (<["koi_score"%string := 0]> example_required)
  = App.predict (ready (example_forest (1#5) (1#2) (3#10)) example_scaler example_encoder)
      example_required
  /\ ~ raises (App.predict (ready (example_forest (1#5) (1#2) (3#10)) example_scaler
                 example_encoder) example_required).
Proof.
  split.
  - apply (predict_optional_default
             (ready (example_forest (1#5) (1#2) (3#10)) example_scaler example_encoder)
             example_required "koi_score"%string).
    + vm_compute. apply list_elem_of_further. apply list_elem_of_here.
    + vm_compute. reflexivity.
  - vm_compute. exact (fun H => H).
Defined.

(** C8 (Unready state).  When one of the four artifact files is absent at
    load time, the constructed predictor has none of its four attributes
    set, and every call of [predict] on it raises the model-not-loaded
    error. *)
Theorem unready_when_artifact_absent (fs : gmap string App.file) (path : string) :
  path ∈ artifact_paths ->
  fs !! path = None ->
  App.new fs = App.init
  /\ App.model (App.new fs) = None
  /\ App.scaler (App.new fs) = None
  /\ App.label_encoder (App.new fs) = None
  /\ App.feature_columns (App.new fs) = None
  /\ forall features, App.predict (App.new fs) features = Raise ModelNotLoaded.
Proof.
  intros Hin Hnone.
  assert (Hnew : App.new fs = App.init).
  { unfold App.new, App.load_model.
    change [App.path_join App.MODEL_DIR "exoplanet_classifier.pkl";
            App.path_join App.MODEL_DIR "feature_scaler.pkl";
            App.path_join App.MODEL_DIR "label_encoder.pkl";
            App.path_join App.MODEL_DIR "feature_names.txt"] with artifact_paths.
    now rewrite (artifact_absent_not_all_exist fs path Hin Hnone). }
  rewrite Hnew. split_and!; try reflexivity.
Qed.

Lemma unready_when_artifact_absent_witness :
  App.new example_fs_without_encoder = App.init
  /\ App.model (App.new example_fs_without_encoder) = None
  /\ App.scaler (App.new example_fs_without_encoder) = None
  /\ App.label_encoder (App.new example_fs_without_encoder) = None
  /\ App.feature_columns (App.new example_fs_without_encoder) = None
  /\ forall features,
       App.predict (App.new example_fs_without_encoder) features = Raise ModelNotLoaded.
Proof.
  apply (unready_when_artifact_absent example_fs_without_encoder
           "models/label_encoder.pkl"%string).
  - vm_compute. do 2 apply list_elem_of_further. apply list_elem_of_here.
  - vm_compute. reflexivity.
Defined.

(** With the four artifacts there, the constructor reaches the Ready state. *)
Example new_ready :
  App.new example_fs
  = ready (example_forest (1#4) (1#4) (1#2)) example_scaler example_encoder.
Proof. vm_compute. reflexivity. Qed.

(** C9 (keys outside the schema do not interfere).  For a predictor whose
    feature names are the twelve of the schema, and so for a Ready one, two
    inputs that agree on these twelve keys give the same outcome of
    [predict], whatever else they hold. *)
Theorem predict_ignores_unknown_keys (self : App.ExoplanetPredictor)
    (features1 features2 : gmap string Q) :
  App.feature_columns self = Some Train.feature_columns ->
  Forall (fun k => features1 !! k = features2 !! k) Train.feature_columns ->
  App.predict self features1 = App.predict self features2.
Proof.
  intros Hcols Hagree. rewrite !predict_unfold, Hcols.
  destruct (App.model self); [|reflexivity]. cbn [Py.bind].
  rewrite (gather_ext Train.feature_columns features1 features2); [reflexivity|].
  intros c Hc. rewrite Forall_forall in Hagree.
  unfold cell_or_default. now rewrite (Hagree c Hc).
Qed.

(** Two extra keys on one side: the same result, which is returned. *)
Lemma predict_ignores_unknown_keys_witness :
  App.predict (ready (example_forest (1#5) (1#2) (3#10)) example_scaler example_encoder)
    (<["session_id"%string := 7]> (<["koi_kepmag"%string := 15]> example_all))
  = App.predict (ready (example_forest (1#5) (1#2) (3#10)) example_scaler example_encoder)
      example_all
  /\ ~ raises (App.predict (ready (example_forest (1#5) (1#2) (3#10)) example_scaler
                 example_encoder) example_all).
Proof.
  split.
  - apply (predict_ignores_unknown_keys
             (ready (example_forest (1#5) (1#2) (3#10)) example_scaler example_encoder)
             (<["session_id"%string := 7]> (<["koi_kepmag"%string := 15]> example_all))
             example_all).
    + reflexivity.
    + repeat (apply Forall_cons; split; [vm_compute; reflexivity|]).
      apply Forall_nil. exact I.
  - vm_compute. exact (fun H => H).
Defined.

(** ** The preprocessing of train_model.py *)

Section Frames.

Implicit Types (df : DataFrame) (col : string) (r : Row).

Lemma filter_sublist {A : Type} (p : A -> bool) (l : list A) :
  List.filter p l `sublist_of` l.
Proof.
  induction l as [|x l IH]; cbn; [constructor|].
  destruct (p x); now constructor.
Qed.

Lemma columns_remove_outliers_col df col :
  columns (Train.remove_outliers_col df col) = columns df.
Proof. unfold Train.remove_outliers_col. now destruct (has_column df col). Qed.

Lemma rows_remove_outliers_col_sublist df col :
  rows (Train.remove_outliers_col df col) `sublist_of` rows df.
Proof.
  unfold Train.remove_outliers_col. destruct (has_column df col); [|reflexivity].
  apply filter_sublist.
Qed.

Lemma columns_fold_outliers (cols : list string) df :
  columns (fold_left Train.remove_outliers_col cols df) = columns df.
Proof.
  revert df. induction cols as [|col cols IH]; intros df; cbn; [reflexivity|].
  now rewrite IH, columns_remove_outliers_col.
Qed.

Lemma rows_fold_outliers_sublist (cols : list string) df :
  rows (fold_left Train.remove_outliers_col cols df) `sublist_of` rows df.
Proof.
  revert df. induction cols as [|col cols IH]; intros df; cbn; [reflexivity|].
  etrans; [apply IH|apply rows_remove_outliers_col_sublist].
Qed.



End Frames.



(** The sequential loop and the filter of every column against the
    unfiltered table differ: the row of period 10 and duration 9 passes every
    fence of the unfiltered table, and falls to the duration fence computed
    once the row of period 30 is gone. *)
Example sequential_is_not_parallel :
  length (rows (Train.remove_outliers example_periods_durations)) = 5%nat
  /\ length (rows (remove_outliers_in_parallel example_periods_durations)) = 6%nat.
Proof. vm_compute. split; reflexivity. Qed.

Section Imputation.

Implicit Types (df : DataFrame) (col : string) (r : Row).

Lemma columns_fillna col (m : option Q) df : columns (fillna col m df) = columns df.
Proof. unfold fillna. now destruct m. Qed.

(** [fillna] touches the missing cells of its column, and nothing else. *)
Lemma fillna_rows col (m : option Q) df :
  Forall2 (fun r r' =>
             disposition r' = disposition r
             /\ forall c, cells r' !! c =
                          if String.eqb c col
                          then match cells r !! c with Some v => Some v | None => m end
                          else cells r !! c)
          (rows df) (rows (fillna col m df)).
Proof.
  unfold fillna. destruct m as [v|]; cbn [rows].
  - apply Forall2_fmap_r, Forall_Forall2_diag, Forall_forall. intros r _.
    unfold compose. destruct (cells r !! col) as [w|] eqn:E; cbn [cells disposition].
    + split; [reflexivity|]. intros c.
      destruct (String.eqb_spec c col) as [->|Hne]; [now rewrite E|reflexivity].
    + split; [reflexivity|]. intros c.
      destruct (String.eqb_spec c col) as [->|Hne].
      * now rewrite lookup_insert_eq, E.
      * now rewrite lookup_insert_ne by congruence.
  - apply Forall_Forall2_diag, Forall_forall. intros r _.
    split; [reflexivity|]. intros c.
    destruct (String.eqb_spec c col) as [->|Hne]; [|reflexivity].
    now destruct (cells r !! col).
Qed.

Lemma Forall2_compose {A : Type} (R S T : A -> A -> Prop) (l k m : list A) :
  (forall x y z, R x y -> S y z -> T x z) ->
  Forall2 R l k -> Forall2 S k m -> Forall2 T l m.
Proof.
  intros HT HR. revert m. induction HR as [|x y l k Hxy _ IH]; intros m HS.
  - inversion HS. constructor.
  - inversion HS as [|y' z k' m' Hyz HS']; subst. constructor; eauto.
Qed.

Lemma Forall2_compose3 {A : Type} (R1 R2 R3 T : A -> A -> Prop) (l0 l1 l2 l3 : list A) :
  (forall a b c d, R1 a b -> R2 b c -> R3 c d -> T a d) ->
  Forall2 R1 l0 l1 -> Forall2 R2 l1 l2 -> Forall2 R3 l2 l3 -> Forall2 T l0 l3.
Proof.
  intros HT H1 H2 H3.
  apply (Forall2_compose (fun a c => exists b, R1 a b /\ R2 b c) R3 T l0 l2 l3).
  - intros a c d (b & Hab & Hbc) Hcd. eauto.
  - apply (Forall2_compose R1 R2 _ l0 l1 l2); [|exact H1|exact H2]. eauto.
  - exact H3.
Qed.

Lemma omap_cells_ext (c : string) (rs rs' : list Row) :
  Forall2 (fun r r' => cells r' !! c = cells r !! c) rs rs' ->
  omap (fun r => cells r !! c) rs' = omap (fun r => cells r !! c) rs.
Proof.
  induction 1 as [|r r' rs rs' Hc _ IH]; cbn; [reflexivity|].
  now rewrite Hc, IH.
Qed.

(** Filling one column leaves the values of the other columns as they are. *)
Lemma column_values_fillna_other col c (m : option Q) df :
  c <> col -> column_values (fillna col m df) c = column_values df c.
Proof.
  intros Hne. unfold column_values. apply omap_cells_ext.
  eapply Forall2_impl; [apply fillna_rows|].
  intros r r' [_ Hcells]. cbn beta. rewrite Hcells.
  destruct (String.eqb_spec c col); [contradiction|reflexivity].
Qed.

Lemma dropna_complete_required r :
  forallb (fun col => bool_decide (is_Some (cells r !! col))) Train.required_cols = true
  <-> complete_required r.
Proof.
  unfold complete_required. rewrite forallb_forall, Forall_forall.
  split; intros H col Hcol.
  - apply list_elem_of_In in Hcol. apply H in Hcol.
    now apply bool_decide_eq_true in Hcol.
  - apply bool_decide_eq_true. apply H. now apply list_elem_of_In.
Qed.

End Imputation.

(** C5 (drop first, impute afterwards).  On a table that has the three
    optional columns, the missing-value block keeps exactly the rows that
    have a value in each of the nine required columns, in order, and returns
    these rows with every missing optional cell set to the median of its
    column over the rows that were kept; the rows that were dropped have no
    part in the medians. *)
Theorem handle_missing_drop_then_impute (df : DataFrame) :
  Forall (fun col => has_column df col = true) Train.optional_cols ->
  let survivors := dropna Train.required_cols df in
  (exists keep : Row -> bool,
     (forall r, keep r = true <-> complete_required r)
     /\ rows survivors = List.filter keep (rows df))
  /\ Forall2 (imputed_from survivors) (rows survivors)
       (rows (Train.handle_missing_values df)).
Proof.
  intros Hcols survivors. split.
  - eexists. split; [apply dropna_complete_required|reflexivity].
  - unfold Train.handle_missing_values. fold survivors.
    assert (Hhas : forall col, col ∈ Train.optional_cols -> has_column survivors col = true).
    { intros col Hcol. rewrite Forall_forall in Hcols. now apply Hcols. }
    unfold Train.fill_optional.
    change Train.optional_cols with ["koi_impact"; "koi_score"; "koi_slogg"]%string in *.
    cbn [fold_left].
    set (d1 := if has_column survivors "koi_impact" then _ else _).
    set (d2 := if has_column d1 "koi_score" then _ else _).
    assert (E1 : d1 = fillna "koi_impact" (median (column_values survivors "koi_impact")) survivors).
    { subst d1. rewrite Hhas; [reflexivity|]. apply list_elem_of_here. }
    assert (E2 : d2 = fillna "koi_score" (median (column_values survivors "koi_score")) d1).
    { subst d2. unfold has_column. rewrite E1 at 1. rewrite columns_fillna.
      fold (has_column survivors "koi_score"). rewrite Hhas.
      - rewrite E1 at 1. now rewrite column_values_fillna_other by discriminate.
      - apply list_elem_of_further, list_elem_of_here. }
    assert (E3 : (if has_column d2 "koi_slogg"
                  then fillna "koi_slogg" (median (column_values d2 "koi_slogg")) d2
                  else d2)
                 = fillna "koi_slogg" (median (column_values survivors "koi_slogg")) d2).
    { unfold has_column. rewrite E2 at 1. rewrite columns_fillna.
      rewrite E1 at 1. rewrite columns_fillna.
      fold (has_column survivors "koi_slogg"). rewrite Hhas.
      - rewrite E2 at 1. rewrite column_values_fillna_other by discriminate.
        rewrite E1 at 1. now rewrite column_values_fillna_other by discriminate.
      - do 2 apply list_elem_of_further. apply list_elem_of_here. }
    rewrite E3. clearbody d1 d2.
    pose proof (fillna_rows "koi_impact" (median (column_values survivors "koi_impact")) survivors) as F1.
    pose proof (fillna_rows "koi_score" (median (column_values survivors "koi_score")) d1) as F2.
    pose proof (fillna_rows "koi_slogg" (median (column_values survivors "koi_slogg")) d2) as F3.
    rewrite <- E1 in F1. rewrite <- E2 in F2.
    eapply Forall2_compose3; [|exact F1|exact F2|exact F3].
    cbn beta. intros r r1 r2 r3 [Hd1 Hc1] [Hd2 Hc2] [Hd3 Hc3].
    split; [congruence|]. intros c.
    rewrite Hc3, Hc2, Hc1.
    change Train.optional_cols with ["koi_impact"; "koi_score"; "koi_slogg"]%string.
    unfold str_in. cbn [existsb].
    destruct (String.eqb c "koi_slogg") eqn:Hslogg;
      destruct (String.eqb c "koi_score") eqn:Hscore;
      destruct (String.eqb c "koi_impact") eqn:Himpact; cbn [orb];
      repeat match goal with
             | H : String.eqb c _ = true |- _ => apply String.eqb_eq in H; subst c
             end;
      try match goal with
          | H : String.eqb _ _ = true |- _ => vm_compute in H; discriminate H
          end;
      now destruct (cells r !! _).
Qed.

(** On the three rows, the row without an orbital period is dropped and the
    missing impact parameter becomes 1, the median over the two rows kept. *)
Lemma handle_missing_drop_then_impute_witness :
  let survivors := dropna Train.required_cols example_missing in
  (exists keep : Row -> bool,
     (forall r, keep r = true <-> complete_required r)
     /\ rows survivors = List.filter keep (rows example_missing))
  /\ Forall2 (imputed_from survivors) (rows survivors)
       (rows (Train.handle_missing_values example_missing)).
Proof.
  apply (handle_missing_drop_then_impute example_missing).
  repeat (apply Forall_cons; split; [vm_compute; reflexivity|]).
  apply Forall_nil. exact I.
Defined.

(** The median is taken after the drop: over the three rows it would be
    101/2, the imputed value is 1. *)
Example median_after_drop :
  median (column_values example_missing "koi_impact") = Some (101 # 2)
  /\ map (fun r => cells r !! "koi_impact"%string)
       (rows (Train.handle_missing_values example_missing))
     = [Some 1; Some 1].
Proof. vm_compute. split; reflexivity. Qed.

(** C6, as stated, fails: on seven rows of periods 1, 2, 3, 4, 5, 10 and 30
    the first pass drops the row of period 30 (fence [-5, 15]), and a second
    pass on the six rows left drops the row of period 10 as well (fence
    [-3/2, 17/2]). *)
Lemma remove_outliers_not_idempotent :
  ~ (forall df : DataFrame,
       rows (Train.remove_outliers (Train.remove_outliers df))
       = rows (Train.remove_outliers df)).
Proof.
  intros H. specialize (H example_periods).
  apply (f_equal (@length Row)) in H. vm_compute in H. discriminate H.
Qed.

(** The values of the period column along the two passes. *)
Example remove_outliers_twice_periods :
  column_values (Train.remove_outliers example_periods) "koi_period"
  = [1; 2; 3; 4; 5; 10]
  /\ column_values (Train.remove_outliers (Train.remove_outliers example_periods)) "koi_period"
     = [1; 2; 3; 4; 5].
Proof. vm_compute. split; reflexivity. Qed.

(** C6 (a second outlier pass), amended.  A second pass over the output of
    the outlier pass adds no row, reorders none and keeps the columns: its
    rows are a sub-list of the rows of the first pass, which are a sub-list
    of the rows of the table.  It may drop further rows. *)
Theorem remove_outliers_twice_sublist (df : DataFrame) :
  rows (Train.remove_outliers (Train.remove_outliers df))
    `sublist_of` rows (Train.remove_outliers df)
  /\ rows (Train.remove_outliers df) `sublist_of` rows df
  /\ columns (Train.remove_outliers (Train.remove_outliers df)) = columns df.
Proof.
  unfold Train.remove_outliers. split_and!.
  - apply rows_fold_outliers_sublist.
  - apply rows_fold_outliers_sublist.
  - now rewrite !columns_fold_outliers.
Qed.

(** ** The predict of train_model.py *)

Lemma has_all_has_required (features : gmap string Q) :
  has_all_features features -> has_required features.
Proof.
  unfold has_all_features, has_required.
  change Train.feature_columns with (Train.required_cols ++ Train.optional_cols).
  rewrite Forall_app. tauto.
Qed.

Lemma select_all_present (features : gmap string Q) :
  has_all_features features ->
  select_columns Train.feature_columns features = Ok (completed_row features).
Proof.
  intros Hall. apply select_columns_gather with features.
  - intros col Hcol. unfold has_all_features in Hall. rewrite Forall_forall in Hall.
    destruct (Hall col Hcol) as [v Hv]. unfold cell_or_default. now rewrite Hv.
  - apply gather_completed. now apply has_all_has_required.
Qed.

(** C10 (the predict of the training module does not merge).  On a trained
    classifier whose encoder holds the three dispositions, for an input
    with the twelve feature columns, [ExoplanetClassifier.predict] returns
    a result whose prediction is the raw disposition of the greatest of the
    three shares, whose confidence_scores has one entry per disposition,
    three in all, with the raw shares, and whose max_confidence is the
    greatest raw share; the merged verdict CONFIRMED/CANDIDATE is neither
    the prediction nor a key of the scores. *)
Theorem train_predict_raw_label (self : Train.ExoplanetClassifier) mdl
    (features : gmap string Q) (p_candidate p_confirmed p_false_positive : Q) :
  Train.model self = Some mdl ->
  consistent mdl (Train.scaler self) (Train.label_encoder self) ->
  has_all_features features ->
  votes mdl (scaled_row (Train.scaler self) features)
    = [p_candidate; p_confirmed; p_false_positive] ->
  exists r i,
    Train.predict self features = Ok r
    /\ persisted_classes !! i = Some (Train.prediction r)
    /\ [p_candidate; p_confirmed; p_false_positive] !! i = Some (Train.max_confidence r)
    /\ p_candidate <= Train.max_confidence r
    /\ p_confirmed <= Train.max_confidence r
    /\ p_false_positive <= Train.max_confidence r
    /\ Train.confidence_scores r
       = [("CANDIDATE"%string, p_candidate); ("CONFIRMED"%string, p_confirmed);
          ("FALSE POSITIVE"%string, p_false_positive)]
    /\ Train.prediction r <> CONFIRMED_CANDIDATE
    /\ CONFIRMED_CANDIDATE ∉ keys (Train.confidence_scores r).
Proof.
  intros Hmodel (Hsc & Hmdl & Henc) Hall Hvotes.
  unfold Train.predict. rewrite Hmodel, (select_all_present _ Hall). cbn [Py.bind].
  unfold transform. rewrite length_completed_row, Hsc. cbn [Nat.eqb Py.bind].
  fold (scaled_row (Train.scaler self) features).
  unfold Sklearn.predict, predict_proba.
  rewrite (length_scaled_row _ _ Hsc), Hmdl. cbn [Nat.eqb Py.bind]. rewrite Hvotes.
  destruct (argmax [p_candidate; p_confirmed; p_false_positive]) as [i|e] eqn:Hargmax;
    [|discriminate Hargmax].
  destruct (argmax_py_max _ _ Hargmax) as (m & Hmax & Hi).
  destruct (argmax_three p_candidate p_confirmed p_false_positive) as (i' & Hi' & Hlt).
  rewrite Hargmax in Hi'. injection Hi' as <-.
  cbn [Py.bind]. unfold inverse_transform. rewrite Henc.
  destruct (persisted_classes !! i) as [l|] eqn:El;
    [|apply lookup_ge_None in El; cbn in El; lia].
  cbn [Py.bind]. rewrite Hmax.
  cbn [Train.score_classes persisted_classes lookup list_lookup dict_set Py.bind].
  cbn.
  destruct (py_max_spec _ _ Hmax) as [_ Hub].
  exists {| Train.prediction := l;
            Train.confidence_scores :=
              [("CANDIDATE"%string, p_candidate); ("CONFIRMED"%string, p_confirmed);
               ("FALSE POSITIVE"%string, p_false_positive)];
            Train.max_confidence := m |}, i.
  cbn [Train.prediction Train.confidence_scores Train.max_confidence].
  split_and!; try reflexivity.
  - exact El.
  - exact Hi.
  - apply Hub. now left.
  - apply Hub. right. now left.
  - apply Hub. right. right. now left.
  - intros ->. destruct i as [|[|[|i]]]; cbn in El; discriminate El.
  - cbn. intros H. repeat (apply elem_of_cons in H as [H|H]; [discriminate H|]).
    inversion H.
Qed.

(** Shares 3/10, 3/10 and 4/10: FALSE POSITIVE at 4/10. *)
Lemma train_predict_raw_label_witness :
  exists r i,
    Train.predict (example_classifier (3#10) (3#10) (4#10)) example_all = Ok r
    /\ persisted_classes !! i = Some (Train.prediction r)
    /\ [3#10; 3#10; 4#10] !! i = Some (Train.max_confidence r)
    /\ (3#10) <= Train.max_confidence r
    /\ (3#10) <= Train.max_confidence r
    /\ (4#10) <= Train.max_confidence r
    /\ Train.confidence_scores r
       = [("CANDIDATE"%string, 3#10); ("CONFIRMED"%string, 3#10);
          ("FALSE POSITIVE"%string, 4#10)]
    /\ Train.prediction r <> CONFIRMED_CANDIDATE
    /\ CONFIRMED_CANDIDATE ∉ keys (Train.confidence_scores r).
Proof.
  apply (train_predict_raw_label (example_classifier (3#10) (3#10) (4#10))
           (example_forest (3#10) (3#10) (4#10)) example_all (3#10) (3#10) (4#10)).
  - reflexivity.
  - apply example_consistent.
  - unfold has_all_features.
    repeat (apply Forall_cons; split; [eexists; vm_compute; reflexivity|]).
    apply Forall_nil. exact I.
  - reflexivity.
Defined.

(** On these shares the two predict operations disagree: the training module
    answers FALSE POSITIVE, the raw label of the greatest share; the server
    answers CONFIRMED/CANDIDATE, since 3/10 + 3/10 exceeds 4/10. *)
Example train_and_app_disagree :
  (exists r, Train.predict (example_classifier (3#10) (3#10) (4#10)) example_all = Ok r
             /\ Train.prediction r = FALSE_POSITIVE)
  /\ (exists r, App.predict (ready (example_forest (3#10) (3#10) (4#10)) example_scaler
                             example_encoder) example_all = Ok r
                /\ App.prediction r = CONFIRMED_CANDIDATE).
Proof. split; eexists; (split; [vm_compute; reflexivity|reflexivity]). Qed.

(** ** The stages of load_and_preprocess_data *)

Lemma columns_handle_missing_values (df : DataFrame) :
  columns (Train.handle_missing_values df) = columns df.
Proof.
  unfold Train.handle_missing_values, Train.fill_optional.
  change (columns df) with (columns (dropna Train.required_cols df)).
  generalize (dropna Train.required_cols df). generalize Train.optional_cols.
  induction l as [|col cols IH]; intros d; cbn [fold_left]; [reflexivity|].
  rewrite IH. destruct (has_column d col); [apply columns_fillna|reflexivity].
Qed.

(** When the function returns, the missing-value block and the outlier loop
    ran on a table that has the twelve feature columns. *)
Lemma load_and_preprocess_data_stages (raw out : DataFrame) :
  Train.load_and_preprocess_data raw = Ok out ->
  exists narrowed,
    Forall (fun col => has_column narrowed col = true) Train.feature_columns
    /\ Forall (fun col => has_column (Train.handle_missing_values narrowed) col = true)
         Train.feature_columns
    /\ out = Train.remove_outliers (Train.handle_missing_values narrowed).
Proof.
  unfold Train.load_and_preprocess_data.
  destruct (Train.filter_dispositions raw) as [d0|e]; cbn [Py.bind]; [|discriminate].
  destruct (Train.narrow_columns d0) as [d1|e] eqn:Hnarrow; cbn [Py.bind]; [|discriminate].
  intros [= <-]. exists d1.
  assert (Hcols : columns d1 = Train.feature_columns ++ [Train.target_column]).
  { unfold Train.narrow_columns in Hnarrow.
    destruct (find _ _); [discriminate|]. now injection Hnarrow as <-. }
  split_and!; [| |reflexivity].
  - unfold has_column. rewrite Hcols.
    repeat (apply Forall_cons; split; [vm_compute; reflexivity|]).
    apply Forall_nil. exact I.
  - unfold has_column. rewrite columns_handle_missing_values, Hcols.
    repeat (apply Forall_cons; split; [vm_compute; reflexivity|]).
    apply Forall_nil. exact I.
Qed.

(** * Further properties of the code *)

(** ** allowed_file *)

Lemma rsplit_dot_without_dot (s : string) :
  has_dot s = false -> Routes.rsplit_dot s = None.
Proof.
  induction s as [|c rest IH]; cbn; [reflexivity|].
  intros H. apply orb_false_iff in H as [Hc Hrest].
  now rewrite (IH Hrest), Hc.
Qed.

Lemma rsplit_dot_last (stem ext : string) :
  has_dot ext = false ->
  Routes.rsplit_dot (stem ++ "." ++ ext)%string = Some ext.
Proof.
  intros Hext. induction stem as [|c stem IH].
  - change (Routes.rsplit_dot (String (Ascii.ascii_of_nat 46) ext) = Some ext).
    cbn [Routes.rsplit_dot]. now rewrite (rsplit_dot_without_dot _ Hext).
  - change (Routes.rsplit_dot (String c (stem ++ "." ++ ext)%string) = Some ext).
    cbn [Routes.rsplit_dot]. now rewrite IH.
Qed.

(** X1.  A file name without a '.' is refused, whatever it is. *)
Theorem allowed_file_without_dot (filename : string) :
  has_dot filename = false -> Routes.allowed_file filename = false.
Proof.
  intros H. unfold Routes.allowed_file. now rewrite (rsplit_dot_without_dot _ H).
Qed.

Lemma allowed_file_without_dot_witness : Routes.allowed_file "csv" = false.
Proof. apply (allowed_file_without_dot "csv"). reflexivity. Defined.

(** X2.  Only the text after the last '.' decides, and its case does not
    matter: a name [stem.ext], where [ext] has no '.', is allowed exactly
    when [ext] in lower case is csv, json or fits; what [stem] holds, other
    extensions included, plays no part. *)
Theorem allowed_file_last_extension (stem ext : string) :
  has_dot ext = false ->
  Routes.allowed_file (stem ++ "." ++ ext)%string
  = str_in (Routes.lower ext) Routes.ALLOWED_EXTENSIONS.
Proof.
  intros H. unfold Routes.allowed_file. now rewrite (rsplit_dot_last _ _ H).
Qed.

Lemma allowed_file_last_extension_witness :
  Routes.allowed_file ("kepler.exe" ++ "." ++ "CSV")%string
  = str_in (Routes.lower "CSV") Routes.ALLOWED_EXTENSIONS.
Proof. apply (allowed_file_last_extension "kepler.exe" "CSV"). reflexivity. Defined.

(** The cases at the edges: upper case, a trailing extension that is not
    allowed, an empty extension, and a name that is only an extension. *)
Example allowed_file_edges :
  Routes.allowed_file "KOI.Json" = true
  /\ Routes.allowed_file "koi.csv.exe" = false
  /\ Routes.allowed_file "koi." = false
  /\ Routes.allowed_file ".fits" = true.
Proof. vm_compute. repeat split. Qed.

(** ** Saving and loading the artifacts *)

Section Loading.

Variables (fs : gmap string App.file) (f1 f2 f3 f4 : App.file).
Hypothesis Hmodel : fs !! "models/exoplanet_classifier.pkl" = Some f1.
Hypothesis Hscaler : fs !! "models/feature_scaler.pkl" = Some f2.
Hypothesis Hencoder : fs !! "models/label_encoder.pkl" = Some f3.
Hypothesis Hnames : fs !! "models/feature_names.txt" = Some f4.

Lemma all_paths_exist : forallb (App.path_exists fs) artifact_paths = true.
Proof.
  unfold artifact_paths, App.path_exists. cbn [forallb].
  rewrite Hmodel, Hscaler, Hencoder, Hnames.
  rewrite !bool_decide_eq_true_2 by eauto. reflexivity.
Qed.

(** The four files are there and readable: every attribute is set, the
    feature names being the lines of the text file without the white space
    around them. *)
Lemma new_all_readable m s e ls :
  App.unpickled f1 = Some m -> App.unpickled f2 = Some s ->
  App.unpickled f3 = Some e -> App.text_lines f4 = Some ls ->
  App.new fs = {| App.model := Some m; App.scaler := Some s;
                  App.label_encoder := Some e;
                  App.feature_columns := Some (map strip ls) |}.
Proof.
  intros H1 H2 H3 H4. unfold App.new, App.load_model.
  change [App.path_join App.MODEL_DIR "exoplanet_classifier.pkl";
          App.path_join App.MODEL_DIR "feature_scaler.pkl";
          App.path_join App.MODEL_DIR "label_encoder.pkl";
          App.path_join App.MODEL_DIR "feature_names.txt"] with artifact_paths.
  rewrite all_paths_exist. unfold App.joblib_load, App.readlines.
  change (App.path_join App.MODEL_DIR "exoplanet_classifier.pkl")
    with "models/exoplanet_classifier.pkl"%string.
  change (App.path_join App.MODEL_DIR "feature_scaler.pkl")
    with "models/feature_scaler.pkl"%string.
  change (App.path_join App.MODEL_DIR "label_encoder.pkl")
    with "models/label_encoder.pkl"%string.
  change (App.path_join App.MODEL_DIR "feature_names.txt")
    with "models/feature_names.txt"%string.
  now rewrite Hmodel, H1, Hscaler, H2, Hencoder, H3, Hnames, H4.
Qed.

(** The scaler file is there and cannot be read: the forest stays assigned
    and nothing else is. *)
Lemma new_scaler_unreadable m :
  App.unpickled f1 = Some m -> App.unpickled f2 = None ->
  App.new fs = {| App.model := Some m; App.scaler := None;
                  App.label_encoder := None; App.feature_columns := None |}.
Proof.
  intros H1 H2. unfold App.new, App.load_model.
  change [App.path_join App.MODEL_DIR "exoplanet_classifier.pkl";
          App.path_join App.MODEL_DIR "feature_scaler.pkl";
          App.path_join App.MODEL_DIR "label_encoder.pkl";
          App.path_join App.MODEL_DIR "feature_names.txt"] with artifact_paths.
  rewrite all_paths_exist. unfold App.joblib_load.
  change (App.path_join App.MODEL_DIR "exoplanet_classifier.pkl")
    with "models/exoplanet_classifier.pkl"%string.
  change (App.path_join App.MODEL_DIR "feature_scaler.pkl")
    with "models/feature_scaler.pkl"%string.
  now rewrite Hmodel, H1, Hscaler, H2.
Qed.

End Loading.

(** X3.  What [save_model] writes, the constructor of the predictor reads
    back: after a trained classifier is saved in the model directory, the
    predictor is in its Ready state, with that forest, that scaler, that
    label encoder, and the twelve feature names in their order. *)
Theorem save_then_load (self : Train.ExoplanetClassifier) mdl
    (fs fs' : gmap string App.file) :
  Train.model self = Some mdl ->
  Save.save_model self App.MODEL_DIR fs = Some fs' ->
  App.new fs' = ready mdl (Train.scaler self) (Train.label_encoder self).
Proof.
  intros Hm. unfold Save.save_model. rewrite Hm. intros [= <-].
  change (App.path_join App.MODEL_DIR "exoplanet_classifier.pkl")
    with "models/exoplanet_classifier.pkl"%string.
  change (App.path_join App.MODEL_DIR "feature_scaler.pkl")
    with "models/feature_scaler.pkl"%string.
  change (App.path_join App.MODEL_DIR "label_encoder.pkl")
    with "models/label_encoder.pkl"%string.
  change (App.path_join App.MODEL_DIR "feature_names.txt")
    with "models/feature_names.txt"%string.
  match goal with |- App.new ?t = _ => set (saved := t) end.
  assert (H1 : saved !! "models/exoplanet_classifier.pkl"%string
               = Some (Save.pickled (PyForest mdl))).
  { subst saved. rewrite !lookup_insert_ne by discriminate. apply lookup_insert_eq. }
  assert (H2 : saved !! "models/feature_scaler.pkl"%string
               = Some (Save.pickled (PyScaler (Train.scaler self)))).
  { subst saved. rewrite !lookup_insert_ne by discriminate. apply lookup_insert_eq. }
  assert (H3 : saved !! "models/label_encoder.pkl"%string
               = Some (Save.pickled (PyEncoder (Train.label_encoder self)))).
  { subst saved. rewrite !lookup_insert_ne by discriminate. apply lookup_insert_eq. }
  assert (H4 : saved !! "models/feature_names.txt"%string
               = Some (Save.names_file Train.feature_columns)).
  { subst saved. apply lookup_insert_eq. }
  rewrite (new_all_readable saved _ _ _ _ H1 H2 H3 H4
             (PyForest mdl) (PyScaler (Train.scaler self))
             (PyEncoder (Train.label_encoder self))
             (map (fun feature => feature ++ newline)%string Train.feature_columns));
    reflexivity.
Qed.

Lemma save_then_load_witness :
  App.new (<["models/feature_names.txt"%string := Save.names_file Train.feature_columns]>
           (<["models/label_encoder.pkl"%string := Save.pickled (PyEncoder example_encoder)]>
            (<["models/feature_scaler.pkl"%string := Save.pickled (PyScaler example_scaler)]>
             (<["models/exoplanet_classifier.pkl"%string :=
                  Save.pickled (PyForest (example_forest (1#5) (1#2) (3#10)))]> ∅))))
  = ready (example_forest (1#5) (1#2) (3#10)) example_scaler example_encoder.
Proof.
  apply (save_then_load (example_classifier (1#5) (1#2) (3#10))
           (example_forest (1#5) (1#2) (3#10)) ∅).
  - reflexivity.
  - reflexivity.
Defined.

(** X4.  Loading is not all or nothing.  When the four files exist, the
    forest is read and the scaler file cannot be read, the exception is
    caught after the forest was assigned: the predictor is left with a
    forest and nothing else, it does not count as unloaded, and every call
    of [predict] raises a [TypeError] instead of the model-not-loaded
    error. *)
Theorem load_model_not_atomic (fs : gmap string App.file) (f1 f2 f3 f4 : App.file) m :
  fs !! "models/exoplanet_classifier.pkl"%string = Some f1 ->
  fs !! "models/feature_scaler.pkl"%string = Some f2 ->
  fs !! "models/label_encoder.pkl"%string = Some f3 ->
  fs !! "models/feature_names.txt"%string = Some f4 ->
  App.unpickled f1 = Some m ->
  App.unpickled f2 = None ->
  App.model (App.new fs) = Some m
  /\ App.scaler (App.new fs) = None
  /\ App.label_encoder (App.new fs) = None
  /\ App.feature_columns (App.new fs) = None
  /\ forall features, App.predict (App.new fs) features = Raise TypeError.
Proof.
  intros H1 H2 H3 H4 Hm Hs.
  rewrite (new_scaler_unreadable fs f1 f2 f3 f4 H1 H2 H3 H4 m Hm Hs).
  split_and!; reflexivity.
Qed.

Lemma load_model_not_atomic_witness :
  App.model (App.new example_fs_corrupt_scaler)
  = Some (PyForest (example_forest (1#4) (1#4) (1#2)))
  /\ App.scaler (App.new example_fs_corrupt_scaler) = None
  /\ App.label_encoder (App.new example_fs_corrupt_scaler) = None
  /\ App.feature_columns (App.new example_fs_corrupt_scaler) = None
  /\ forall features, App.predict (App.new example_fs_corrupt_scaler) features = Raise TypeError.
Proof.
  apply (load_model_not_atomic example_fs_corrupt_scaler
           (example_pickle (PyForest (example_forest (1#4) (1#4) (1#2))))
           unreadable
           (example_pickle (PyEncoder example_encoder))
           {| App.unpickled := None;
              App.text_lines := Some (map (fun col => col ++ newline)%string Train.feature_columns) |}).
  - vm_compute. reflexivity.
  - vm_compute. reflexivity.
  - vm_compute. reflexivity.
  - vm_compute. reflexivity.
  - reflexivity.
  - reflexivity.
Defined.

(** ** The decision rule on any set of classes *)

Section Dicts.

Context {V : Type}.
Implicit Types (d : pydict V) (k : string) (v : V).

Lemma keys_dict_set d k v :
  keys (dict_set d k v) = if str_in k (keys d) then keys d else keys d ++ [k].
Proof.
  unfold str_in, keys. induction d as [|[k' v'] d IH]; cbn; [reflexivity|].
  rewrite (String.eqb_sym k k'). destruct (String.eqb k' k); cbn; [reflexivity|].
  rewrite IH. now destruct (existsb _ _).
Qed.

Lemma dict_get_set_eq d k v default : dict_get (dict_set d k v) k default = v.
Proof.
  induction d as [|[k' v'] d IH]; cbn.
  - now rewrite String.eqb_refl.
  - destruct (String.eqb k' k) eqn:E; cbn; rewrite E; [reflexivity|exact IH].
Qed.

Lemma dict_get_set_ne d k k' v default :
  k <> k' -> dict_get (dict_set d k v) k' default = dict_get d k' default.
Proof.
  intros Hne. induction d as [|[k0 v0] d IH]; cbn.
  - apply String.eqb_neq in Hne. now rewrite Hne.
  - destruct (String.eqb k0 k) eqn:E; cbn.
    + apply String.eqb_eq in E as ->. apply String.eqb_neq in Hne. now rewrite Hne.
    + now rewrite IH.
Qed.

Lemma dict_set_fresh d k v : k ∉ keys d -> dict_set d k v = d ++ [(k, v)].
Proof.
  induction d as [|[k' v'] d IH]; cbn; [reflexivity|].
  intros Hk. apply not_elem_of_cons in Hk as [Hne Hk].
  assert (E : String.eqb k' k = false) by (apply String.eqb_neq; congruence).
  now rewrite E, (IH Hk).
Qed.

Lemma elem_of_keys_dict_set d k v k' :
  k' ∈ keys (dict_set d k v) <-> k' = k \/ k' ∈ keys d.
Proof.
  rewrite keys_dict_set. destruct (str_in k (keys d)) eqn:E.
  - apply str_in_elem_of in E. split; [now right|]. now intros [->|?].
  - rewrite elem_of_app, list_elem_of_singleton. tauto.
Qed.

End Dicts.

Lemma dict_sum_app (d d' : pydict Q) : dict_sum (d ++ d') == dict_sum d + dict_sum d'.
Proof.
  unfold dict_sum, values. induction d as [|[k v] d IH]; cbn.
  - ring.
  - rewrite IH. ring.
Qed.

Lemma dict_sum_set_fresh (d : pydict Q) (k : string) (v : Q) :
  k ∉ keys d -> dict_sum (dict_set d k v) == dict_sum d + v.
Proof.
  intros H. rewrite (dict_set_fresh _ _ _ H), dict_sum_app.
  unfold dict_sum. cbn. ring.
Qed.

(** The first loop returns when there is a share for every class. *)
Lemma score_classes_returns (classes : list string) (i : nat) (probabilities : list Q)
    (d : pydict Q) :
  (i + length classes <= length probabilities)%nat ->
  exists d', App.score_classes classes i probabilities d = Ok d'.
Proof.
  revert i d. induction classes as [|c classes IH]; intros i d Hlen; cbn.
  - eauto.
  - cbn in Hlen. destruct (probabilities !! i) as [p|] eqn:E.
    + apply IH. lia.
    + apply lookup_ge_None in E. lia.
Qed.

(** With distinct classes the first loop lists the classes with their
    shares, in order. *)
Lemma score_classes_distinct (classes : list string) (i : nat) (probabilities : list Q)
    (d : pydict Q) :
  NoDup classes ->
  (forall c, c ∈ classes -> c ∉ keys d) ->
  (i + length classes <= length probabilities)%nat ->
  App.score_classes classes i probabilities d
  = Ok (d ++ zip classes (take (length classes) (drop i probabilities))).
Proof.
  revert i d. induction classes as [|c classes IH]; intros i d Hnd Hfresh Hlen; cbn.
  - now rewrite app_nil_r.
  - cbn in Hlen. apply NoDup_cons in Hnd as [Hc Hnd].
    destruct (probabilities !! i) as [p|] eqn:E;
      [|apply lookup_ge_None in E; lia].
    rewrite dict_set_fresh by (apply Hfresh, list_elem_of_here).
    rewrite IH; [|exact Hnd| |lia].
    + rewrite <- app_assoc. cbn. do 2 f_equal.
      rewrite (drop_S _ _ _ E). reflexivity.
    + intros c' Hc'. unfold keys. rewrite map_app, elem_of_app. cbn.
      rewrite list_elem_of_singleton. intros [H| ->].
      * apply (Hfresh c'); [now apply list_elem_of_further|exact H].
      * contradiction.
Qed.

(** The merging loop puts no raw CONFIRMED or CANDIDATE key in the merged
    dictionary. *)
Lemma merge_scores_keys (items : list (string * Q)) (merged : pydict Q) (cc : Q) (k : string) :
  k ∈ keys (fst (App.merge_scores items merged cc)) ->
  k ∈ keys merged
  \/ (k ∈ keys items /\ str_in k ["CONFIRMED"; "CANDIDATE"]%string = false).
Proof.
  revert merged cc.
  induction items as [|[c p] items IH]; intros merged cc; cbn [App.merge_scores fst].
  - now left.
  - destruct (str_in c ["CONFIRMED"; "CANDIDATE"]%string) eqn:E.
    + intros H. destruct (IH _ _ H) as [?|[? ?]]; [now left|].
      right. split; [now apply list_elem_of_further|assumption].
    + intros H. destruct (IH _ _ H) as [Hk|[? ?]].
      * apply elem_of_keys_dict_set in Hk as [->|Hk]; [|now left].
        right. split; [apply list_elem_of_here|exact E].
      * right. split; [now apply list_elem_of_further|assumption].
Qed.

(** With distinct keys the merging loop loses no share: what it adds to the
    merged dictionary and to the merged score is the total of the items. *)
Lemma merge_scores_sum (items : list (string * Q)) (merged : pydict Q) (cc : Q) :
  NoDup (keys items) ->
  (forall k, k ∈ keys items -> k ∉ keys merged) ->
  dict_sum (fst (App.merge_scores items merged cc)) + snd (App.merge_scores items merged cc)
  == dict_sum merged + cc + dict_sum items.
Proof.
  revert merged cc.
  induction items as [|[c p] items IH]; intros merged cc Hnd Hfresh;
    cbn [App.merge_scores fst snd].
  - unfold dict_sum at 3. cbn. ring.
  - cbn in Hnd. apply NoDup_cons in Hnd as [Hc Hnd].
    assert (Hsum : dict_sum ((c, p) :: items) == p + dict_sum items) by reflexivity.
    destruct (str_in c ["CONFIRMED"; "CANDIDATE"]%string).
    + rewrite IH; [rewrite Hsum; ring|exact Hnd|].
      intros k Hk. apply Hfresh. now apply list_elem_of_further.
    + rewrite IH; [|exact Hnd|].
      * rewrite dict_sum_set_fresh by (apply Hfresh, list_elem_of_here).
        rewrite Hsum. ring.
      * intros k Hk Hin. apply elem_of_keys_dict_set in Hin as [->|Hin].
        -- contradiction.
        -- apply (Hfresh k); [now apply list_elem_of_further|exact Hin].
Qed.

(** X5.  Whatever classes the label encoder holds, three or not, and
    whatever shares the forest gives: when there is a share for every class
    the decision rule returns a result; its verdict is CONFIRMED/CANDIDATE
    or FALSE POSITIVE; its scores have the key CONFIRMED/CANDIDATE and never
    the raw keys CONFIRMED or CANDIDATE; [max_confidence] is the score
    stored under the verdict, and neither of the two merged scores exceeds
    it; the feature names are passed on. *)
Theorem decide_verdict_invariants (classes : list string) (probabilities : list Q)
    (cols : list string) :
  (length classes <= length probabilities)%nat ->
  exists r,
    App.decide_verdict classes probabilities cols = Ok r
    /\ (App.prediction r = CONFIRMED_CANDIDATE \/ App.prediction r = FALSE_POSITIVE)
    /\ CONFIRMED_CANDIDATE ∈ keys (App.confidence_scores r)
    /\ ("CONFIRMED"%string ∉ keys (App.confidence_scores r))
    /\ ("CANDIDATE"%string ∉ keys (App.confidence_scores r))
    /\ App.max_confidence r = dict_get (App.confidence_scores r) (App.prediction r) 0
    /\ dict_get (App.confidence_scores r) CONFIRMED_CANDIDATE 0 <= App.max_confidence r
    /\ dict_get (App.confidence_scores r) FALSE_POSITIVE 0 <= App.max_confidence r
    /\ App.features_used r = cols.
Proof.
  intros Hlen.
  destruct (score_classes_returns classes 0 probabilities [] Hlen) as [d Hd].
  unfold App.decide_verdict. rewrite Hd. cbn [Py.bind].
  pose proof (merge_scores_keys d [] 0) as Hkeys.
  destruct (App.merge_scores d [] 0) as [merged0 cc]. cbn [fst] in Hkeys.
  fold CONFIRMED_CANDIDATE FALSE_POSITIVE.
  set (scores := dict_set merged0 CONFIRMED_CANDIDATE cc).
  assert (Hraw : forall k, str_in k ["CONFIRMED"; "CANDIDATE"]%string = true ->
                           k <> CONFIRMED_CANDIDATE -> k ∉ keys scores).
  { intros k Hk Hne Hin. apply elem_of_keys_dict_set in Hin as [->|Hin]; [congruence|].
    destruct (Hkeys k Hin) as [Hnil|[_ Hfalse]]; [inversion Hnil|congruence]. }
  assert (Hcc : dict_get scores CONFIRMED_CANDIDATE 0 = cc) by apply dict_get_set_eq.
  destruct (Qgtb cc (dict_get scores FALSE_POSITIVE 0)) eqn:E;
    eexists; (split; [reflexivity|]);
    cbn [App.prediction App.confidence_scores App.max_confidence App.features_used];
    fold scores; split_and!; try reflexivity.
  - now left.
  - apply elem_of_keys_dict_set. now left.
  - apply Hraw; [reflexivity|discriminate].
  - apply Hraw; [reflexivity|discriminate].
  - now rewrite Hcc.
  - rewrite Hcc. apply Qle_refl.
  - apply Qgtb_true in E. now apply Qlt_le_weak.
  - now right.
  - apply elem_of_keys_dict_set. now left.
  - apply Hraw; [reflexivity|discriminate].
  - apply Hraw; [reflexivity|discriminate].
  - rewrite Hcc. now apply Qgtb_false in E.
  - apply Qle_refl.
Qed.

(** An encoder fitted on data without false positives: one key only. *)
Lemma decide_verdict_invariants_witness :
  exists r,
    App.decide_verdict ["CANDIDATE"; "CONFIRMED"]%string [1#4; 3#4] Train.feature_columns = Ok r
    /\ (App.prediction r = CONFIRMED_CANDIDATE \/ App.prediction r = FALSE_POSITIVE)
    /\ CONFIRMED_CANDIDATE ∈ keys (App.confidence_scores r)
    /\ ("CONFIRMED"%string ∉ keys (App.confidence_scores r))
    /\ ("CANDIDATE"%string ∉ keys (App.confidence_scores r))
    /\ App.max_confidence r = dict_get (App.confidence_scores r) (App.prediction r) 0
    /\ dict_get (App.confidence_scores r) CONFIRMED_CANDIDATE 0 <= App.max_confidence r
    /\ dict_get (App.confidence_scores r) FALSE_POSITIVE 0 <= App.max_confidence r
    /\ App.features_used r = Train.feature_columns.
Proof.
  apply (decide_verdict_invariants ["CANDIDATE"; "CONFIRMED"]%string [1#4; 3#4]
           Train.feature_columns).
  cbn. lia.
Defined.

(** X6.  Merging loses no probability: when the classes are distinct and
    none of them is called CONFIRMED/CANDIDATE, the scores of the result
    sum to the total of the shares of the classes, whatever the number of
    classes. *)
Theorem decide_verdict_conserves_total (classes : list string) (probabilities : list Q)
    (cols : list string) :
  NoDup classes ->
  CONFIRMED_CANDIDATE ∉ classes ->
  (length classes <= length probabilities)%nat ->
  exists r,
    App.decide_verdict classes probabilities cols = Ok r
    /\ dict_sum (App.confidence_scores r)
       == fold_right Qplus 0 (take (length classes) probabilities).
Proof.
  intros Hnd Hcc Hlen.
  pose proof (score_classes_distinct classes 0 probabilities [] Hnd) as Hd.
  rewrite drop_0 in Hd. cbn [app] in Hd.
  specialize (Hd ltac:(intros c _ H; inversion H) ltac:(lia)).
  set (d := zip classes (take (length classes) probabilities)) in *.
  assert (Hkd : keys d = classes).
  { unfold keys, d. apply fst_zip. rewrite length_take. lia. }
  assert (Hvd : dict_sum d == fold_right Qplus 0 (take (length classes) probabilities)).
  { unfold dict_sum, values, d.
    change (map snd (zip classes (take (length classes) probabilities)))
      with ((zip classes (take (length classes) probabilities)).*2).
    rewrite snd_zip by (rewrite length_take; lia). reflexivity. }
  unfold App.decide_verdict. rewrite Hd. cbn [Py.bind].
  pose proof (merge_scores_keys d [] 0) as Hkeys.
  pose proof (merge_scores_sum d [] 0) as Hsum.
  rewrite Hkd in Hsum. specialize (Hsum Hnd ltac:(intros k _ H; inversion H)).
  destruct (App.merge_scores d [] 0) as [merged0 cc]. cbn [fst snd] in Hkeys, Hsum.
  fold CONFIRMED_CANDIDATE FALSE_POSITIVE.
  assert (Hfresh : CONFIRMED_CANDIDATE ∉ keys merged0).
  { intros Hin. destruct (Hkeys _ Hin) as [Hnil|[Hin' _]]; [inversion Hnil|].
    rewrite Hkd in Hin'. contradiction. }
  assert (Htotal : dict_sum (dict_set merged0 CONFIRMED_CANDIDATE cc)
                   == fold_right Qplus 0 (take (length classes) probabilities)).
  { rewrite (dict_sum_set_fresh _ _ _ Hfresh), Hsum, Hvd.
    unfold dict_sum at 1. cbn. ring. }
  destruct (Qgtb cc _); eexists; (split; [reflexivity|exact Htotal]).
Qed.

(** Four classes, one of them unknown to the rule: the total is kept. *)
Lemma decide_verdict_conserves_total_witness :
  exists r,
    App.decide_verdict ["CANDIDATE"; "CONFIRMED"; "FALSE POSITIVE"; "NOT DISPOSITIONED"]%string
      [1#8; 3#8; 1#4; 1#4] Train.feature_columns = Ok r
    /\ dict_sum (App.confidence_scores r)
       == fold_right Qplus 0
            (take (length ["CANDIDATE"; "CONFIRMED"; "FALSE POSITIVE"; "NOT DISPOSITIONED"]%string)
               [1#8; 3#8; 1#4; 1#4]).
Proof.
  apply (decide_verdict_conserves_total
           ["CANDIDATE"; "CONFIRMED"; "FALSE POSITIVE"; "NOT DISPOSITIONED"]%string
           [1#8; 3#8; 1#4; 1#4] Train.feature_columns).
  - repeat (apply NoDup_cons; split;
            [intros H; repeat (apply elem_of_cons in H as [H|H]; [discriminate H|]);
             inversion H|]).
    apply NoDup_nil. exact I.
  - intros H. repeat (apply elem_of_cons in H as [H|H]; [discriminate H|]). inversion H.
  - cbn. lia.
Defined.

(** ** The predict of train_model.py: missing columns *)

Lemma select_columns_missing (cols : list string) (features : gmap string Q) (col : string) :
  col ∈ cols -> features !! col = None ->
  exists k, select_columns cols features = Raise (KeyError k).
Proof.
  induction cols as [|c cols IH]; intros Hin Hnone; [inversion Hin|].
  cbn [select_columns]. destruct (features !! c) as [v|] eqn:E; [|eauto].
  apply elem_of_cons in Hin as [->|Hin]; [congruence|].
  destruct (IH Hin Hnone) as [k ->]. eauto.
Qed.

(** X7.  The predict of the training module has no default for a missing
    feature: on a trained classifier, an input that lacks any one of the
    twelve columns, an optional one included, raises a [KeyError]. *)
Theorem train_predict_missing_column (self : Train.ExoplanetClassifier) mdl
    (features : gmap string Q) (col : string) :
  Train.model self = Some mdl ->
  col ∈ Train.feature_columns ->
  features !! col = None ->
  exists k, Train.predict self features = Raise (KeyError k).
Proof.
  intros Hm Hin Hnone. unfold Train.predict. rewrite Hm.
  destruct (select_columns_missing _ _ _ Hin Hnone) as [k ->]. eauto.
Qed.

(** The input of the nine required features, which the server accepts. *)
Lemma train_predict_missing_column_witness :
  exists k, Train.predict (example_classifier (3#10) (3#10) (4#10)) example_required
            = Raise (KeyError k).
Proof.
  apply (train_predict_missing_column (example_classifier (3#10) (3#10) (4#10))
           (example_forest (3#10) (3#10) (4#10)) example_required "koi_score"%string).
  - reflexivity.
  - vm_compute. do 10 apply list_elem_of_further. apply list_elem_of_here.
  - vm_compute. reflexivity.
Defined.

(** ** The table that load_and_preprocess_data returns *)

Section Cleaning.

Implicit Types (df : DataFrame) (col : string) (r : Row).

Lemma elem_of_filter_bool {A : Type} (p : A -> bool) (l : list A) (x : A) :
  x ∈ List.filter p l <-> x ∈ l /\ p x = true.
Proof. rewrite !list_elem_of_In. apply filter_In. Qed.

Lemma Forall2_elem_of_r {A : Type} (R : A -> A -> Prop) (l k : list A) (y : A) :
  Forall2 R l k -> y ∈ k -> exists x, x ∈ l /\ R x y.
Proof.
  induction 1 as [|x y' l k Hxy _ IH]; intros Hy; [inversion Hy|].
  apply elem_of_cons in Hy as [->|Hy].
  - exists x. split; [apply list_elem_of_here|exact Hxy].
  - destruct (IH Hy) as (x' & Hx' & HR). exists x'.
    split; [now apply list_elem_of_further|exact HR].
Qed.

(** A row that is left by the loop over [cols] has a value in each of them. *)
Lemma fold_outliers_present (cols : list string) df r :
  Forall (fun col => has_column df col = true) cols ->
  r ∈ rows (fold_left Train.remove_outliers_col cols df) ->
  Forall (fun col => is_Some (cells r !! col)) cols.
Proof.
  revert df. induction cols as [|col cols IH]; intros df Hcols Hr; [constructor|].
  apply Forall_cons in Hcols as [Hcol Hcols]. cbn [fold_left] in Hr.
  constructor.
  - pose proof (rows_fold_outliers_sublist cols (Train.remove_outliers_col df col)) as Hsub.
    apply (fun H => elem_of_sublist _ _ _ H Hsub) in Hr.
    unfold Train.remove_outliers_col in Hr. rewrite Hcol in Hr.
    cbn [keep_rows rows] in Hr. apply elem_of_filter_bool in Hr as [_ Hmask].
    unfold Train.outlier_mask, Train.within_bounds in Hmask.
    destruct (cells r !! col); [eauto|discriminate].
  - apply (IH (Train.remove_outliers_col df col)); [|exact Hr].
    eapply Forall_impl; [exact Hcols|]. intros c Hc.
    unfold has_column in *. now rewrite columns_remove_outliers_col.
Qed.

(** The imputation loop keeps the rows, their dispositions and their cells,
    and only adds cells in the columns it goes through. *)
Lemma fill_fold_rows (cols : list string) df :
  Forall2 (fun r r' =>
             disposition r' = disposition r
             /\ forall c, is_Some (cells r' !! c) -> is_Some (cells r !! c) \/ c ∈ cols)
          (rows df)
          (rows (fold_left (fun df col =>
                   if has_column df col
                   then fillna col (median (column_values df col)) df else df) cols df)).
Proof.
  revert df. induction cols as [|col cols IH]; intros df; cbn [fold_left].
  - apply Forall_Forall2_diag, Forall_forall. intros r _. split; [reflexivity|]. now left.
  - eapply Forall2_compose; [| |apply IH].
    2: { instantiate (1 := fun r r' =>
           disposition r' = disposition r
           /\ forall c, is_Some (cells r' !! c) -> is_Some (cells r !! c) \/ c = col).
         destruct (has_column df col).
         - eapply Forall2_impl; [apply fillna_rows|].
           intros r r' [Hd Hc]. split; [exact Hd|]. intros c. rewrite Hc.
           destruct (String.eqb_spec c col) as [->|_]; [|now left].
           destruct (cells r !! col); [left; eauto|now right].
         - apply Forall_Forall2_diag, Forall_forall. intros r _.
           split; [reflexivity|]. now left. }
    cbn beta. intros r r1 r2 [Hd1 Hc1] [Hd2 Hc2]. split; [congruence|].
    intros c Hc. destruct (Hc2 c Hc) as [H1|Hin].
    + destruct (Hc1 c H1) as [?| ->]; [now left|]. right. apply list_elem_of_here.
    + right. now apply list_elem_of_further.
Qed.

Lemma filter_dispositions_ok (raw d0 : DataFrame) :
  Train.filter_dispositions raw = Ok d0 ->
  has_column raw Train.target_column = true
  /\ columns d0 = columns raw
  /\ rows d0 = List.filter (fun r => match disposition r with
                                      | Some d => str_in d Train.valid_dispositions
                                      | None => false
                                      end) (rows raw).
Proof.
  unfold Train.filter_dispositions.
  destruct (has_column raw Train.target_column); [|discriminate].
  intros H. inversion H. now split_and!.
Qed.

Lemma narrow_columns_ok (d0 d1 : DataFrame) :
  Train.narrow_columns d0 = Ok d1 ->
  Forall (fun col => has_column d0 col = true) needed_columns
  /\ columns d1 = needed_columns
  /\ rows d1 = map (fun r =>
                      {| cells := filter (fun kv => str_in (fst kv) Train.feature_columns = true)
                                    (cells r);
                         disposition := disposition r |}) (rows d0).
Proof.
  unfold Train.narrow_columns. fold needed_columns.
  destruct (find _ needed_columns) eqn:E; [discriminate|].
  intros H. inversion H. split_and!; try reflexivity.
  apply Forall_forall. intros col Hcol. apply list_elem_of_In in Hcol.
  pose proof (find_none _ _ E col Hcol) as Hneg. cbn beta in Hneg.
  now destruct (has_column d0 col).
Qed.

End Cleaning.

Lemma remove_outliers_unfold (df : DataFrame) :
  Train.remove_outliers df = fold_left Train.remove_outliers_col Train.feature_columns df.
Proof. reflexivity. Qed.

Lemma handle_missing_values_unfold (df : DataFrame) :
  Train.handle_missing_values df
  = fold_left (fun df col =>
                 if has_column df col
                 then fillna col (median (column_values df col)) df else df)
      Train.optional_cols (dropna Train.required_cols df).
Proof. reflexivity. Qed.

Lemma load_and_preprocess_data_ok (raw out : DataFrame) :
  Train.load_and_preprocess_data raw = Ok out ->
  exists d0 d1,
    Train.filter_dispositions raw = Ok d0
    /\ Train.narrow_columns d0 = Ok d1
    /\ out = Train.remove_outliers (Train.handle_missing_values d1).
Proof.
  unfold Train.load_and_preprocess_data.
  destruct (Train.filter_dispositions raw) as [d0|e]; cbn [Py.bind]; [|discriminate].
  destruct (Train.narrow_columns d0) as [d1|e] eqn:Hn; cbn [Py.bind]; [|discriminate].
  intros Hout. exists d0, d1. split_and!; [reflexivity|exact Hn|congruence].
Qed.

Lemma needed_has_features (df : DataFrame) :
  columns df = needed_columns ->
  Forall (fun col => has_column df col = true) Train.feature_columns.
Proof.
  intros H. unfold has_column. rewrite H.
  repeat (apply Forall_cons; split; [vm_compute; reflexivity|]).
  apply Forall_nil. exact I.
Qed.

(** The rows of the missing-value block come from rows of its input, with
    the same disposition and with new cells in the optional columns only. *)
Lemma handle_missing_values_rows (df : DataFrame) (r : Row) :
  r ∈ rows (Train.handle_missing_values df) ->
  exists r1, r1 ∈ rows df
             /\ disposition r = disposition r1
             /\ forall c, is_Some (cells r !! c) ->
                          is_Some (cells r1 !! c) \/ c ∈ Train.optional_cols.
Proof.
  rewrite handle_missing_values_unfold. intros Hr.
  destruct (Forall2_elem_of_r _ _ _ _
              (fill_fold_rows Train.optional_cols (dropna Train.required_cols df)) Hr)
    as (r1 & Hr1 & Hd & Hc).
  cbn [dropna keep_rows rows] in Hr1. apply elem_of_filter_bool in Hr1 as [Hr1 _].
  exists r1. now split_and!.
Qed.

Lemma length_handle_missing_values (df : DataFrame) :
  (length (rows (Train.handle_missing_values df)) <= length (rows df))%nat.
Proof.
  rewrite handle_missing_values_unfold.
  rewrite <- (Forall2_length _ _ _
                (fill_fold_rows Train.optional_cols (dropna Train.required_cols df))).
  cbn [dropna keep_rows rows]. apply sublist_length, filter_sublist.
Qed.

(** X8.  Whenever [load_and_preprocess_data] returns, the table it returns
    has the twelve feature columns and the target column, no more rows than
    the table read, and only clean rows: a disposition among CONFIRMED,
    CANDIDATE and FALSE POSITIVE, a value in each of the twelve feature
    columns, and no other cell. *)
Theorem preprocessed_rows_clean (raw out : DataFrame) :
  Train.load_and_preprocess_data raw = Ok out ->
  columns out = needed_columns
  /\ (length (rows out) <= length (rows raw))%nat
  /\ Forall clean_row (rows out).
Proof.
  intros Hout.
  destruct (load_and_preprocess_data_ok _ _ Hout) as (d0 & d1 & Hfilter & Hnarrow & ->).
  apply filter_dispositions_ok in Hfilter as (_ & _ & Hrows0).
  apply narrow_columns_ok in Hnarrow as (_ & Hcols1 & Hrows1).
  assert (Hcols2 : columns (Train.handle_missing_values d1) = needed_columns)
    by now rewrite columns_handle_missing_values.
  pose proof (needed_has_features _ Hcols2) as Hhas.
  rewrite remove_outliers_unfold.
  split_and!.
  - now rewrite columns_fold_outliers.
  - etrans; [apply sublist_length, rows_fold_outliers_sublist|].
    etrans; [apply length_handle_missing_values|].
    rewrite Hrows1, length_map, Hrows0. apply sublist_length, filter_sublist.
  - apply Forall_forall. intros r Hr.
    pose proof (fold_outliers_present Train.feature_columns
                  (Train.handle_missing_values d1) r Hhas Hr) as Hpresent.
    pose proof (elem_of_sublist _ _ _ Hr
                  (rows_fold_outliers_sublist Train.feature_columns
                     (Train.handle_missing_values d1))) as Hr2.
    destruct (handle_missing_values_rows _ _ Hr2) as (r1 & Hr1 & Hd & Hc).
    rewrite Hrows1 in Hr1.
    apply list_elem_of_In, in_map_iff in Hr1 as (r0 & <- & Hr0).
    apply list_elem_of_In in Hr0. rewrite Hrows0 in Hr0.
    apply elem_of_filter_bool in Hr0 as [_ Hvalid].
    cbn [disposition cells] in Hd, Hc. split.
    + rewrite Hd. destruct (disposition r0) as [d|]; [|discriminate].
      exists d. split; [reflexivity|]. now apply str_in_elem_of.
    + intros col. split.
      * intros Hsome. destruct (Hc col Hsome) as [[v Hv]|Hopt].
        -- apply map_lookup_filter_Some in Hv as [_ Hin]. cbn [fst] in Hin.
           now apply str_in_elem_of.
        -- change Train.feature_columns with (Train.required_cols ++ Train.optional_cols).
           apply elem_of_app. now right.
      * intros Hin. rewrite Forall_forall in Hpresent. now apply Hpresent.
Qed.

Lemma preprocessed_rows_clean_witness :
  exists out,
    Train.load_and_preprocess_data example_raw = Ok out
    /\ columns out = needed_columns
    /\ (length (rows out) <= length (rows example_raw))%nat
    /\ Forall clean_row (rows out).
Proof.
  eexists. split; [vm_compute; reflexivity|].
  apply (preprocessed_rows_clean example_raw). vm_compute. reflexivity.
Defined.


(** A table with the columns and no row comes back empty. *)
Example load_and_preprocess_data_empty :
  Train.load_and_preprocess_data {| columns := needed_columns; rows := [] |}
  = Ok {| columns := needed_columns; rows := [] |}.
Proof. vm_compute. reflexivity. Qed.

(** ** The route /api/predict *)

Section Route.

Variable float_of_string : string -> result Q.

Implicit Types (members : gmap string Routes.json) (todo : list string)
  (acc features : gmap string Q).

(** The step of [expected_features]. *)
Let step members acc feature : gmap string Q :=
  match Routes.dict_lookup Routes.feature_mapping feature,
        converted float_of_string members feature with
  | Ok key, Some x => <[key := x]> acc
  | _, _ => acc
  end.

Lemma mapping_known (feature : string) :
  feature ∈ Routes.required_features ++ Routes.optional_features ->
  exists key, Routes.dict_lookup Routes.feature_mapping feature = Ok key
              /\ key ∈ Train.feature_columns.
Proof.
  intros H. cbv [Routes.required_features Routes.optional_features app] in H.
  repeat (apply elem_of_cons in H as [->|H];
          [eexists; split; [vm_compute; reflexivity|];
           vm_compute; repeat (first [apply list_elem_of_here|apply list_elem_of_further])|]).
  inversion H.
Qed.

Lemma converted_lookup members feature v :
  members !! feature = Some v ->
  converted float_of_string members feature
  = match Routes.py_float float_of_string v with Ok x => Some x | Raise _ => None end.
Proof. intros H. unfold converted. now rewrite H. Qed.

Lemma converted_absent members feature :
  members !! feature = None -> converted float_of_string members feature = None.
Proof. intros H. unfold converted. now rewrite H. Qed.

Lemma step_insert members acc feature key x :
  Routes.dict_lookup Routes.feature_mapping feature = Ok key ->
  converted float_of_string members feature = Some x ->
  step members acc feature = <[key := x]> acc.
Proof. intros Hk Hc. unfold step. now rewrite Hk, Hc. Qed.

Lemma step_skip members acc feature :
  converted float_of_string members feature = None ->
  step members acc feature = acc.
Proof.
  intros Hc. unfold step. rewrite Hc.
  now destruct (Routes.dict_lookup Routes.feature_mapping feature).
Qed.

(** The loop over the required features, on an object: it ends with the
    features exactly when every member is there and is a number. *)
Lemma check_required_object members todo acc :
  Forall (fun feature => feature ∈ Routes.required_features ++ Routes.optional_features) todo ->
  (Forall (fun feature => is_Some (converted float_of_string members feature)) todo ->
   Routes.check_required float_of_string (Routes.JObject members) todo acc
   = Ok (inr (fold_left (step members) todo acc)))
  /\ (forall features,
        Routes.check_required float_of_string (Routes.JObject members) todo acc
        = Ok (inr features) ->
        Forall (fun feature => is_Some (converted float_of_string members feature)) todo).
Proof.
  revert acc. induction todo as [|feature todo IH]; intros acc Hknown.
  - split; [reflexivity|]. intros. constructor.
  - apply Forall_cons in Hknown as [Hfeature Hknown].
    destruct (mapping_known _ Hfeature) as (key & Hkey & _).
    cbn [Routes.check_required Routes.contains Routes.getitem Py.bind fold_left].
    destruct (members !! feature) as [v|] eqn:Hv.
    + pose proof (converted_lookup _ _ _ Hv) as Hc.
      rewrite bool_decide_eq_true_2 by eauto. cbn [negb Py.bind].
      destruct (Routes.py_float float_of_string v) as [x|e] eqn:Hx; cbn [Py.bind].
      * rewrite Hkey. cbn [Py.bind]. rewrite (step_insert _ _ _ _ _ Hkey Hc).
        destruct (IH (<[key := x]> acc) Hknown) as [IH1 IH2]. split.
        -- intros Hall. apply Forall_cons in Hall as [_ Hall]. now apply IH1.
        -- intros features Hf. constructor; [rewrite Hc; eauto|now apply (IH2 features)].
      * split; [|discriminate]. intros Hall. apply Forall_cons in Hall as [[x Hx'] _].
        congruence.
    + pose proof (converted_absent _ _ Hv) as Hc.
      rewrite bool_decide_eq_false_2 by (intros [? [=]]). cbn [negb].
      split; [|discriminate]. intros Hall. apply Forall_cons in Hall as [[x Hx'] _].
      congruence.
Qed.

(** The loop over the optional features, on an object. *)
Lemma add_optional_object members todo acc :
  Forall (fun feature => feature ∈ Routes.required_features ++ Routes.optional_features) todo ->
  (Forall (usable_optional float_of_string members) todo ->
   Routes.add_optional float_of_string (Routes.JObject members) todo acc
   = Ok (fold_left (step members) todo acc))
  /\ (forall features,
        Routes.add_optional float_of_string (Routes.JObject members) todo acc = Ok features ->
        features = fold_left (step members) todo acc).
Proof.
  revert acc. induction todo as [|feature todo IH]; intros acc Hknown.
  - split; [reflexivity|]. now intros features [= <-].
  - apply Forall_cons in Hknown as [Hfeature Hknown].
    destruct (mapping_known _ Hfeature) as (key & Hkey & _).
    cbn [Routes.add_optional Routes.contains Routes.getitem Py.bind fold_left].
    destruct (members !! feature) as [v|] eqn:Hv.
    + pose proof (converted_lookup _ _ _ Hv) as Hc.
      rewrite bool_decide_eq_true_2 by eauto. cbn [Py.bind].
      destruct (Routes.py_float float_of_string v) as [x|e] eqn:Hx.
      * rewrite (step_insert _ _ _ _ _ Hkey Hc).
        destruct (IH (<[key := x]> acc) Hknown) as [IH1 IH2].
        destruct v; try discriminate Hx; rewrite ?Hx; cbn [Py.bind]; rewrite Hkey;
          cbn [Py.bind];
          (split; [intros Hall; apply Forall_cons in Hall as [_ Hall]; now apply IH1
                  |exact IH2]).
      * rewrite (step_skip _ _ _ Hc).
        destruct (IH acc Hknown) as [IH1 IH2].
        destruct v; rewrite ?Hx; cbn [Py.bind];
          first [ split; [intros Hall; apply Forall_cons in Hall as [_ Hall]; now apply IH1
                         |exact IH2]
                | split; [|discriminate]; intros Hall; apply Forall_cons in Hall as [Hu _];
                  destruct Hu as [Hu|[Hu|[y Hu]]]; congruence ].
    + rewrite (step_skip _ _ _ (converted_absent _ _ Hv)).
      rewrite bool_decide_eq_false_2 by (intros [? [=]]).
      destruct (IH acc Hknown) as [IH1 IH2].
      split; [intros Hall; apply Forall_cons in Hall as [_ Hall]; now apply IH1|exact IH2].
Qed.

Lemma required_known :
  Forall (fun feature => feature ∈ Routes.required_features ++ Routes.optional_features)
    Routes.required_features.
Proof. apply Forall_forall. intros f Hf. apply elem_of_app. now left. Qed.

Lemma optional_known :
  Forall (fun feature => feature ∈ Routes.required_features ++ Routes.optional_features)
    Routes.optional_features.
Proof. apply Forall_forall. intros f Hf. apply elem_of_app. now right. Qed.


(** What [extract_features] builds when it ends with features. *)
Lemma extract_features_object members features :
  Routes.extract_features float_of_string (Routes.JObject members) = Ok (inr features) ->
  Forall (fun feature => is_Some (converted float_of_string members feature))
    Routes.required_features
  /\ features = expected_features float_of_string members.
Proof.
  unfold Routes.extract_features.
  destruct (Routes.truthy (Routes.JObject members)); cbn [negb]; [|discriminate].
  destruct (check_required_object members Routes.required_features ∅ required_known)
    as [_ Hreq].
  destruct (Routes.check_required float_of_string (Routes.JObject members)
              Routes.required_features ∅) as [[early|checked]|e] eqn:Hcheck;
    cbn [Py.bind]; try discriminate.
  pose proof (Hreq checked eq_refl) as Hall.
  destruct (check_required_object members Routes.required_features ∅ required_known)
    as [Hok _].
  rewrite (Hok Hall) in Hcheck. injection Hcheck as <-.
  destruct (add_optional_object members Routes.optional_features
              (fold_left (step members) Routes.required_features ∅) optional_known)
    as [_ Hopt].
  destruct (Routes.add_optional float_of_string (Routes.JObject members)
              Routes.optional_features _) as [added|e] eqn:Hadd; cbn [Py.bind]; [|discriminate].
  intros [= <-]. split; [exact Hall|].
  rewrite (Hopt added eq_refl). unfold expected_features. now rewrite fold_left_app.
Qed.


(** The loops only add cells, under names of the schema. *)
Lemma fold_step_mono members todo acc (k : string) :
  is_Some (acc !! k) -> is_Some (fold_left (step members) todo acc !! k).
Proof.
  revert acc. induction todo as [|feature todo IH]; intros acc Hk; [exact Hk|].
  cbn [fold_left]. apply IH. unfold step.
  destruct (Routes.dict_lookup Routes.feature_mapping feature) as [key|]; [|exact Hk].
  destruct (converted float_of_string members feature) as [x|]; [|exact Hk].
  apply lookup_insert_is_Some. destruct (decide (key = k)); [now left|now right].
Qed.

Lemma fold_step_has members todo acc feature key :
  feature ∈ todo ->
  Routes.dict_lookup Routes.feature_mapping feature = Ok key ->
  is_Some (converted float_of_string members feature) ->
  is_Some (fold_left (step members) todo acc !! key).
Proof.
  revert acc. induction todo as [|f todo IH]; intros acc Hin Hkey [x Hx]; [inversion Hin|].
  cbn [fold_left]. apply elem_of_cons in Hin as [->|Hin].
  - apply fold_step_mono. rewrite (step_insert _ _ _ _ _ Hkey Hx).
    rewrite lookup_insert_eq. eauto.
  - apply IH; eauto.
Qed.

Lemma fold_step_keys members todo acc (k : string) :
  Forall (fun feature => feature ∈ Routes.required_features ++ Routes.optional_features) todo ->
  is_Some (fold_left (step members) todo acc !! k) ->
  is_Some (acc !! k) \/ k ∈ Train.feature_columns.
Proof.
  revert acc. induction todo as [|feature todo IH]; intros acc Hknown Hk; [now left|].
  apply Forall_cons in Hknown as [Hfeature Hknown]. cbn [fold_left] in Hk.
  destruct (IH _ Hknown Hk) as [Hstep|?]; [|now right].
  destruct (mapping_known _ Hfeature) as (key & Hkey & Hschema).
  unfold step in Hstep. rewrite Hkey in Hstep.
  destruct (converted float_of_string members feature) as [x|]; [|now left].
  apply lookup_insert_is_Some in Hstep as [<-|[_ ?]]; [now right|now left].
Qed.

(** The required names of the route are the required names of the model,
    in the same order. *)
Lemma required_names_aligned :
  Forall2 (fun feature col => Routes.dict_lookup Routes.feature_mapping feature = Ok col)
    Routes.required_features Train.required_cols.
Proof. repeat constructor. Qed.

(** A body that is not an object never gives features. *)
Lemma extract_features_not_object (data : Routes.json) features :
  Routes.extract_features float_of_string data = Ok (inr features) ->
  exists members, data = Routes.JObject members.
Proof.
  unfold Routes.extract_features.
  destruct (Routes.truthy data); cbn [negb]; [|discriminate].
  destruct data as [|b|x|s|items|members]; try discriminate; [| |eauto].
  - cbn [Routes.required_features Routes.check_required Routes.contains Py.bind].
    destruct (String.index 0 "orbital_period" s); cbn; discriminate.
  - cbn [Routes.required_features Routes.check_required Routes.contains Py.bind].
    destruct (existsb _ items); cbn; discriminate.
Qed.

(** The features the route builds: the required ones, within the schema. *)
Lemma extract_features_invariant_aux (data : Routes.json) features :
  Routes.extract_features float_of_string data = Ok (inr features) ->
  has_required features
  /\ forall k, is_Some (features !! k) -> k ∈ Train.feature_columns.
Proof.
  intros Hextract.
  destruct (extract_features_not_object _ _ Hextract) as [members ->].
  destruct (extract_features_object _ _ Hextract) as [Hreq ->].
  unfold expected_features. split.
  - apply Forall_forall. intros col Hcol.
    destruct (Forall2_elem_of_r _ _ _ _ required_names_aligned Hcol)
      as (feature & Hfeature & Hkey).
    apply fold_step_has with feature; [|exact Hkey|].
    + apply elem_of_app. now left.
    + rewrite Forall_forall in Hreq. now apply Hreq.
  - intros k Hk.
    destruct (fold_step_keys members (Routes.required_features ++ Routes.optional_features)
                ∅ k) as [Hempty|?]; [|exact Hk| |assumption].
    + apply Forall_forall. now intros.
    + rewrite lookup_empty in Hempty. now destruct Hempty.
Qed.

(** X10.  Whatever the body, when the route has built the features it hands
    to the predictor, these features hold the nine required features of
    the model, and no key outside the twelve names of the schema: the
    members of the body that the route does not know never reach the
    predictor, and neither does a body that lacks a required feature. *)
Theorem extract_features_invariant (data : Routes.json) features :
  Routes.extract_features float_of_string data = Ok (inr features) ->
  has_required features
  /\ forall k, is_Some (features !! k) -> k ∈ Train.feature_columns.
Proof. apply extract_features_invariant_aux. Qed.







Lemma check_required_ext members members' todo acc :
  Forall (fun feature => members !! feature = members' !! feature) todo ->
  Routes.check_required float_of_string (Routes.JObject members) todo acc
  = Routes.check_required float_of_string (Routes.JObject members') todo acc.
Proof.
  revert acc. induction todo as [|feature todo IH]; intros acc Hagree; [reflexivity|].
  apply Forall_cons in Hagree as [Hfeature Hagree].
  cbn [Routes.check_required Routes.contains Routes.getitem Py.bind].
  rewrite <- Hfeature.
  destruct (bool_decide (is_Some (members !! feature))); cbn [negb]; [|reflexivity].
  destruct (members !! feature) as [v|]; cbn [Py.bind]; [|reflexivity].
  destruct (Routes.py_float float_of_string v); cbn [Py.bind]; [|reflexivity].
  destruct (Routes.dict_lookup Routes.feature_mapping feature); cbn [Py.bind];
    [apply IH; exact Hagree|reflexivity].
Qed.

Lemma add_optional_skip (data : Routes.json) members feature todo acc :
  data = Routes.JObject members ->
  drop_null (members !! feature) = None ->
  Routes.add_optional float_of_string data (feature :: todo) acc
  = Routes.add_optional float_of_string data todo acc.
Proof.
  intros -> Hnull. cbn [Routes.add_optional Routes.contains Routes.getitem Py.bind].
  destruct (members !! feature) as [v|] eqn:Hv.
  - rewrite bool_decide_eq_true_2 by eauto. cbn [Py.bind].
    destruct v; try discriminate Hnull. reflexivity.
  - rewrite bool_decide_eq_false_2 by (intros [? [=]]). reflexivity.
Qed.

Lemma add_optional_use (data : Routes.json) members feature v todo acc :
  data = Routes.JObject members ->
  members !! feature = Some v -> v <> Routes.JNull ->
  Routes.add_optional float_of_string data (feature :: todo) acc
  = (let* x := Routes.py_float float_of_string v in
     let* key := Routes.dict_lookup Routes.feature_mapping feature in
     Routes.add_optional float_of_string data todo (<[key := x]> acc)).
Proof.
  intros -> Hv Hnn. cbn [Routes.add_optional Routes.contains Routes.getitem Py.bind].
  rewrite Hv, bool_decide_eq_true_2 by eauto. cbn [Py.bind].
  destruct v; try reflexivity. contradiction.
Qed.

Lemma add_optional_ext members members' todo acc :
  Forall (fun feature => drop_null (members !! feature) = drop_null (members' !! feature))
    todo ->
  Routes.add_optional float_of_string (Routes.JObject members) todo acc
  = Routes.add_optional float_of_string (Routes.JObject members') todo acc.
Proof.
  revert acc. induction todo as [|feature todo IH]; intros acc Hagree; [reflexivity|].
  apply Forall_cons in Hagree as [Hfeature Hagree].
  destruct (drop_null (members !! feature)) as [v|] eqn:Hv.
  - assert (Hm : members !! feature = Some v /\ v <> Routes.JNull).
    { destruct (members !! feature) as [[]|]; cbn in Hv; try discriminate Hv;
        injection Hv as <-; split; (reflexivity || discriminate). }
    assert (Hm' : members' !! feature = Some v /\ v <> Routes.JNull).
    { symmetry in Hfeature.
      destruct (members' !! feature) as [[]|]; cbn in Hfeature; try discriminate Hfeature;
        injection Hfeature as <-; split; (reflexivity || discriminate). }
    destruct Hm as [Hm Hnn], Hm' as [Hm' _].
    rewrite (add_optional_use _ members feature v todo acc eq_refl Hm Hnn).
    rewrite (add_optional_use _ members' feature v todo acc eq_refl Hm' Hnn).
    destruct (Routes.py_float float_of_string v); cbn [Py.bind]; [|reflexivity].
    destruct (Routes.dict_lookup Routes.feature_mapping feature); cbn [Py.bind];
      [apply IH; exact Hagree|reflexivity].
  - rewrite (add_optional_skip _ members feature todo acc eq_refl Hv).
    rewrite (add_optional_skip _ members' feature todo acc eq_refl (eq_sym Hfeature)).
    apply IH. exact Hagree.
Qed.

(** X15.  The answer of the route depends on the twelve members it knows
    and on nothing else: two bodies that are objects with a member at least,
    that agree on the nine required members, and that agree on the three
    optional ones up to a null standing for an absent member, get the same
    answer; a session id, or any other member, changes nothing. *)
Theorem predict_exoplanet_ignores_other_members (predictor : App.ExoplanetPredictor)
    (now : string) members members' :
  Routes.truthy (Routes.JObject members) = true ->
  Routes.truthy (Routes.JObject members') = true ->
  Forall (fun feature => members !! feature = members' !! feature)
    Routes.required_features ->
  Forall (fun feature => drop_null (members !! feature) = drop_null (members' !! feature))
    Routes.optional_features ->
  Routes.predict_exoplanet float_of_string predictor now (Routes.JObject members)
  = Routes.predict_exoplanet float_of_string predictor now (Routes.JObject members').
Proof.
  intros Ht Ht' Hreq Hopt. unfold Routes.predict_exoplanet, Routes.extract_features.
  rewrite Ht, Ht'. cbn [negb].
  rewrite (check_required_ext members members' _ _ Hreq).
  destruct (Routes.check_required float_of_string (Routes.JObject members')
              Routes.required_features ∅) as [[early|features]|e]; cbn [Py.bind];
    try reflexivity.
  now rewrite (add_optional_ext members members' _ _ Hopt).
Qed.

End Route.



Lemma extract_features_invariant_witness :
  has_required example_features
  /\ forall k, is_Some (example_features !! k) -> k ∈ Train.feature_columns.
Proof.
  apply (extract_features_invariant example_float_of_string
           (Routes.JObject example_body) example_features).
  vm_compute. reflexivity.
Defined.





Lemma predict_exoplanet_ignores_other_members_witness :
  Routes.predict_exoplanet example_float_of_string
    (ready (example_forest (1#5) (1#2) (3#10)) example_scaler example_encoder)
    "2024-01-01T00:00:00" (Routes.JObject example_body)
  = Routes.predict_exoplanet example_float_of_string
      (ready (example_forest (1#5) (1#2) (3#10)) example_scaler example_encoder)
      "2024-01-01T00:00:00"
      (Routes.JObject (delete "impact_parameter"%string
                         (delete "session_id"%string example_body))).
Proof.
  apply (predict_exoplanet_ignores_other_members example_float_of_string).
  - vm_compute. reflexivity.
  - vm_compute. reflexivity.
  - repeat (apply Forall_cons; split; [vm_compute; reflexivity|]).
    apply Forall_nil. exact I.
  - repeat (apply Forall_cons; split; [vm_compute; reflexivity|]).
    apply Forall_nil. exact I.
Defined.

(** ** Quartiles and the rows that the outlier loop keeps *)

Section Quantiles.

Implicit Types (x y : Q) (l s xs : list Q).

Lemma In_insert_sorted x y l : In y (insert_sorted x l) <-> y = x \/ In y l.
Proof.
  induction l as [|z l IH]; cbn.
  - intuition congruence.
  - destruct (Qle_bool x z); cbn; [intuition congruence|].
    rewrite IH. intuition congruence.
Qed.

Lemma insert_sorted_sorted x l :
  StronglySorted Qle l -> StronglySorted Qle (insert_sorted x l).
Proof.
  induction 1 as [|z l Hl IH Hz]; cbn.
  - repeat constructor.
  - destruct (Qle_bool x z) eqn:E.
    + apply Qle_bool_iff in E. constructor; [now constructor|].
      constructor; [exact E|]. eapply Forall_impl; [exact Hz|].
      intros w Hw. now apply Qle_trans with z.
    + assert (Hzx : z <= x).
      { apply Qlt_le_weak, Qnot_le_lt. intros H. apply Qle_bool_iff in H. congruence. }
      constructor; [exact IH|]. apply List.Forall_forall. intros w Hw.
      apply In_insert_sorted in Hw as [->|Hw]; [exact Hzx|].
      rewrite List.Forall_forall in Hz. now apply Hz.
Qed.

Lemma sort_values_sorted l : StronglySorted Qle (sort_values l).
Proof.
  induction l as [|x l IH]; cbn; [constructor|]. now apply insert_sorted_sorted.
Qed.

Lemma In_sort_values y l : In y (sort_values l) <-> In y l.
Proof.
  induction l as [|x l IH]; cbn; [tauto|].
  rewrite In_insert_sorted, IH. intuition congruence.
Qed.

Lemma sort_values_nil l : sort_values l = [] -> l = [].
Proof.
  destruct l as [|x l]; [reflexivity|]. intros H.
  assert (Hin : In x (sort_values (x :: l))) by (apply In_sort_values; now left).
  rewrite H in Hin. destruct Hin.
Qed.

(** In a sorted list the items grow with the index. *)
Lemma sorted_nth_le s (i j : nat) :
  StronglySorted Qle s -> (i <= j < length s)%nat -> nth i s 0 <= nth j s 0.
Proof.
  intros Hs. revert i j. induction Hs as [|z s Hs IH Hz]; intros i j [Hij Hj].
  - cbn in Hj. lia.
  - destruct i as [|i], j as [|j]; cbn in *; try lia.
    + apply Qle_refl.
    + rewrite List.Forall_forall in Hz. apply Hz, nth_In. lia.
    + apply IH. lia.
Qed.

(** Where [quantile] reads the sorted values. *)
Lemma quantile_position q (n : nat) :
  0 <= q -> q <= 1 -> (1 <= n)%nat ->
  (0 <= Qfloor (q * inject_Z (Z.of_nat (n - 1))) <= Z.of_nat (n - 1))%Z.
Proof.
  intros Hq0 Hq1 Hn. set (N := inject_Z (Z.of_nat (n - 1))).
  assert (HN : 0 <= N) by (unfold N; change 0 with (inject_Z 0); rewrite <- Zle_Qle; lia).
  split.
  - change 0%Z with (Qfloor 0). apply Qfloor_resp_le. now apply Qmult_le_0_compat.
  - rewrite <- (Qfloor_Z (Z.of_nat (n - 1))). apply Qfloor_resp_le. fold N.
    rewrite <- (Qmult_1_l N) at 2. now apply Qmult_le_compat_r.
Qed.

(** The interpolated value lies between the two items it is taken from. *)
Lemma interpolate_between q s :
  StronglySorted Qle s -> s <> [] -> 0 <= q -> q <= 1 ->
  let lo := Z.to_nat (Qfloor (q * inject_Z (Z.of_nat (length s - 1)))) in
  let hi := Nat.min (S lo) (length s - 1) in
  (lo <= hi <= length s - 1)%nat
  /\ nth lo s 0 <= interpolate q s
  /\ interpolate q s <= nth hi s 0.
Proof.
  intros Hs Hne Hq0 Hq1 lo hi.
  assert (Hn : (1 <= length s)%nat) by (destruct s; [congruence|cbn; lia]).
  pose proof (quantile_position q (length s) Hq0 Hq1 Hn) as [Hf0 Hf1].
  assert (Hlo : (lo <= length s - 1)%nat) by (unfold lo; lia).
  assert (Hhi : (lo <= hi <= length s - 1)%nat) by (unfold hi; lia).
  split; [exact Hhi|].
  pose proof (sorted_nth_le s lo hi Hs ltac:(lia)) as Hd.
  unfold interpolate. fold lo. fold hi.
  set (h := q * inject_Z (Z.of_nat (length s - 1))) in *.
  pose proof (Qfloor_le h) as Hfl. pose proof (Qlt_floor h) as Hfu.
  rewrite inject_Z_plus in Hfu. change (inject_Z 1) with 1 in Hfu.
  set (frac := h - inject_Z (Qfloor h)).
  assert (Hfrac0 : 0 <= frac) by (unfold frac; lra).
  assert (Hfrac1 : frac <= 1) by (unfold frac; lra).
  set (a := nth lo s 0) in *. set (b := nth hi s 0) in *.
  assert (H1 : 0 <= frac * (b - a)) by (apply Qmult_le_0_compat; lra).
  assert (H2 : 0 <= (1 - frac) * (b - a)) by (apply Qmult_le_0_compat; lra).
  split; lra.
Qed.

Lemma quantile_interpolate q xs :
  quantile q xs = match sort_values xs with
                  | [] => None
                  | _ :: _ => Some (interpolate q (sort_values xs))
                  end.
Proof. unfold quantile. now destruct (sort_values xs). Qed.

Lemma quantile_some q xs :
  xs <> [] -> quantile q xs = Some (interpolate q (sort_values xs)).
Proof.
  intros Hne. rewrite quantile_interpolate.
  destruct (sort_values xs) eqn:E; [|reflexivity]. now apply sort_values_nil in E.
Qed.

(** Among sorted values there is always one within the fence of the two
    quartiles. *)
Lemma fence_keeps_a_value s :
  StronglySorted Qle s -> s <> [] ->
  exists x, In x s
            /\ interpolate 0.25 s - 1.5 * (interpolate 0.75 s - interpolate 0.25 s) <= x
            /\ x <= interpolate 0.75 s + 1.5 * (interpolate 0.75 s - interpolate 0.25 s).
Proof.
  intros Hs Hne.
  destruct (interpolate_between 0.25 s Hs Hne ltac:(lra) ltac:(lra)) as (Hp1 & Hlo1 & Hhi1).
  destruct (interpolate_between 0.75 s Hs Hne ltac:(lra) ltac:(lra)) as (Hp3 & Hlo3 & Hhi3).
  set (N := inject_Z (Z.of_nat (length s - 1))) in *.
  set (f1 := Qfloor (0.25 * N)) in *. set (f3 := Qfloor (0.75 * N)) in *.
  assert (Hn : (1 <= length s)%nat) by (destruct s; [congruence|cbn; lia]).
  pose proof (quantile_position 0.25 (length s) ltac:(lra) ltac:(lra) Hn) as [Hf10 Hf11].
  pose proof (quantile_position 0.75 (length s) ltac:(lra) ltac:(lra) Hn) as [Hf30 Hf31].
  fold N in Hf10, Hf11, Hf30, Hf31. fold f1 in Hf10, Hf11. fold f3 in Hf30, Hf31.
  destruct (Nat.le_gt_cases 3 (length s)) as [Hbig|Hsmall].
  - (* three values or more: the value above the first quartile *)
    assert (HN : 2 <= N).
    { unfold N. change 2 with (inject_Z 2). rewrite <- Zle_Qle. lia. }
    assert (Hstep : (f1 + 1 <= f3)%Z).
    { rewrite <- (Qfloor_Z (f1 + 1)). apply Qfloor_resp_le.
      rewrite inject_Z_plus. change (inject_Z 1) with 1.
      pose proof (Qfloor_le (0.25 * N)) as Hfl. fold f1 in Hfl. lra. }
    exists (nth (Nat.min (S (Z.to_nat f1)) (length s - 1)) s 0).
    assert (Hle : nth (Nat.min (S (Z.to_nat f1)) (length s - 1)) s 0
                  <= nth (Z.to_nat f3) s 0) by (apply sorted_nth_le; [exact Hs|lia]).
    split; [apply nth_In; lia|]. split; lra.
  - (* one value or two: the least value *)
    destruct s as [|a [|b [|c s]]]; [congruence| | |cbn in Hsmall; lia].
    + exists a. split; [now left|]. unfold interpolate. cbn [length Nat.sub].
      change (Qfloor (0.25 * inject_Z (Z.of_nat 0))) with 0%Z.
      change (Qfloor (0.75 * inject_Z (Z.of_nat 0))) with 0%Z.
      change (inject_Z (Z.of_nat 0)) with 0. change (inject_Z 0) with 0.
      change (Z.to_nat 0) with 0%nat. cbn [Nat.min nth]. split; lra.
    + exists a. split; [now left|].
      assert (Hab : a <= b).
      { inversion Hs as [|? ? _ Hall]. now inversion Hall. }
      unfold interpolate. cbn [length Nat.sub].
      change (Qfloor (0.25 * inject_Z (Z.of_nat 1))) with 0%Z.
      change (Qfloor (0.75 * inject_Z (Z.of_nat 1))) with 0%Z.
      change (inject_Z (Z.of_nat 1)) with 1. change (inject_Z 0) with 0.
      change (Z.to_nat 0) with 0%nat. cbn [Nat.min nth]. split; lra.
Qed.

End Quantiles.

(** X16.  A quartile, or any quantile of order between 0 and 1, of a column
    that has values lies between two values of the column; a column without
    values has none (NaN). *)
Theorem quantile_between_values (q : Q) (xs : list Q) :
  0 <= q -> q <= 1 -> xs <> [] ->
  quantile q [] = None
  /\ exists v a b,
       quantile q xs = Some v /\ In a xs /\ In b xs /\ a <= v /\ v <= b.
Proof.
  intros Hq0 Hq1 Hne. split; [reflexivity|].
  assert (Hs : sort_values xs <> []) by (intros E; now apply sort_values_nil in E).
  destruct (interpolate_between q (sort_values xs) (sort_values_sorted xs) Hs Hq0 Hq1)
    as (Hpos & Hlo & Hhi).
  assert (Hlen : (1 <= length (sort_values xs))%nat)
    by (destruct (sort_values xs); [congruence|cbn; lia]).
  eexists _, _, _. split; [apply (quantile_some q xs Hne)|].
  split_and!; [| |exact Hlo|exact Hhi]; apply In_sort_values, nth_In; lia.
Qed.

Lemma quantile_between_values_witness :
  quantile (1#4) [] = None
  /\ exists v a b,
       quantile (1#4) [5; 1; 3; 2] = Some v
       /\ In a [5; 1; 3; 2] /\ In b [5; 1; 3; 2] /\ a <= v /\ v <= b.
Proof.
  apply (quantile_between_values (1#4) [5; 1; 3; 2]).
  - discriminate.
  - discriminate.
  - discriminate.
Defined.

Lemma outlier_turn_keeps_a_row (df : DataFrame) (col : string) :
  has_column df col = true ->
  column_values df col <> [] ->
  rows (Train.remove_outliers_col df col) <> [].
Proof.
  intros Hhas Hne.
  assert (Hs : sort_values (column_values df col) <> [])
    by (intros E; now apply sort_values_nil in E).
  destruct (fence_keeps_a_value _ (sort_values_sorted (column_values df col)) Hs)
    as (x & Hx & Hlo & Hhi).
  apply (proj1 (In_sort_values _ _)) in Hx. apply (proj2 (list_elem_of_In _ _)) in Hx.
  unfold column_values in Hx.
  apply list_elem_of_omap in Hx as (r & Hr & Hcell).
  assert (Hin : r ∈ rows (Train.remove_outliers_col df col)).
  { unfold Train.remove_outliers_col. rewrite Hhas. cbn [keep_rows rows].
    apply elem_of_filter_bool. split; [exact Hr|].
    unfold Train.outlier_mask. rewrite !(quantile_some _ _ Hne). cbn [nan2].
    unfold Train.within_bounds. rewrite Hcell.
    apply andb_true_iff. split; [now apply Qgeb_true|now apply Qleb_true]. }
  intros E. rewrite E in Hin. inversion Hin.
Qed.

Lemma fold_outliers_keeps_a_row (cols : list string) (df : DataFrame) :
  rows df <> [] ->
  Forall (fun r => Forall (fun col => is_Some (cells r !! col)) cols) (rows df) ->
  rows (fold_left Train.remove_outliers_col cols df) <> [].
Proof.
  revert df. induction cols as [|col cols IH]; intros df Hne Hall; [exact Hne|].
  cbn [fold_left]. apply IH.
  - unfold Train.remove_outliers_col at 1.
    destruct (has_column df col) eqn:Hhas; [|exact Hne].
    fold (Train.remove_outliers_col df col).
    replace (keep_rows (Train.outlier_mask df col) df)
      with (Train.remove_outliers_col df col)
      by (unfold Train.remove_outliers_col; now rewrite Hhas).
    apply outlier_turn_keeps_a_row; [exact Hhas|].
    destruct (rows df) as [|r rs] eqn:Hrows; [congruence|].
    apply Forall_cons in Hall as [Hr _]. apply Forall_cons in Hr as [[v Hv] _].
    unfold column_values. rewrite Hrows. cbn [omap list_omap]. rewrite Hv. discriminate.
  - rewrite Forall_forall in *. intros r Hr.
    apply (fun H => elem_of_sublist _ _ _ H (rows_remove_outliers_col_sublist df col)) in Hr.
    specialize (Hall r Hr). now apply Forall_cons in Hall as [_ ?].
Qed.

(** X17.  The outlier pass never drops every row of a table without missing
    values: when the table has a row and each of its rows has a value in
    each of the twelve feature columns, a row at least is left. *)
Theorem remove_outliers_keeps_a_row (df : DataFrame) :
  rows df <> [] ->
  Forall complete_row (rows df) ->
  rows (Train.remove_outliers df) <> [].
Proof.
  intros Hne Hall. rewrite remove_outliers_unfold.
  now apply fold_outliers_keeps_a_row.
Qed.

Lemma remove_outliers_keeps_a_row_witness :
  rows (Train.remove_outliers example_periods_durations) <> [].
Proof.
  apply (remove_outliers_keeps_a_row example_periods_durations).
  - discriminate.
  - repeat (apply Forall_cons; split;
            [repeat (apply Forall_cons; split; [eexists; vm_compute; reflexivity|]);
             apply Forall_nil; exact I|]).
    apply Forall_nil. exact I.
Defined.

(** ** A feature column without values *)

Lemma column_values_all_missing (df : DataFrame) (col : string) :
  (forall r, r ∈ rows df -> cells r !! col = None) -> column_values df col = [].
Proof.
  unfold column_values. induction (rows df) as [|r rs IH]; intros H; [reflexivity|].
  cbn [omap list_omap]. rewrite (H r) by apply list_elem_of_here.
  apply IH. intros r' Hr'. apply H. now apply list_elem_of_further.
Qed.

(** The imputation loop leaves a column without values as it is. *)
Lemma fill_fold_missing (cols : list string) (df : DataFrame) (c : string) :
  (forall r, r ∈ rows df -> cells r !! c = None) ->
  forall r, r ∈ rows (fold_left (fun df col =>
                        if has_column df col
                        then fillna col (median (column_values df col)) df else df) cols df) ->
            cells r !! c = None.
Proof.
  revert df. induction cols as [|col cols IH]; intros df Hmissing; [exact Hmissing|].
  cbn [fold_left]. apply IH. destruct (has_column df col); [|exact Hmissing].
  destruct (String.eqb_spec c col) as [<-|Hne].
  - rewrite (column_values_all_missing _ _ Hmissing). exact Hmissing.
  - intros r Hr.
    destruct (Forall2_elem_of_r _ _ _ _
                (fillna_rows col (median (column_values df col)) df) Hr)
      as (r0 & Hr0 & _ & Hcells).
    rewrite Hcells. apply String.eqb_neq in Hne. rewrite Hne. now apply Hmissing.
Qed.

(** X18.  A feature column that is in the table read and has no value in
    any row, required or optional, is no error: the function returns a
    table without rows.  For a required column every row is dropped as
    incomplete; for an optional one there is no median to impute, and
    every row falls to the outlier fence of that column, which is NaN. *)
Theorem column_without_values_empties (raw out : DataFrame) (col : string) :
  Train.load_and_preprocess_data raw = Ok out ->
  col ∈ Train.feature_columns ->
  (forall r, r ∈ rows raw -> cells r !! col = None) ->
  rows out = [].
Proof.
  intros Hout Hcol Hmissing.
  destruct (load_and_preprocess_data_ok _ _ Hout) as (d0 & d1 & Hfilter & Hnarrow & ->).
  apply filter_dispositions_ok in Hfilter as (_ & _ & Hrows0).
  apply narrow_columns_ok in Hnarrow as (_ & Hcols1 & Hrows1).
  assert (Hcols2 : columns (Train.handle_missing_values d1) = needed_columns)
    by now rewrite columns_handle_missing_values.
  pose proof (needed_has_features _ Hcols2) as Hhas.
  assert (H1 : forall r, r ∈ rows d1 -> cells r !! col = None).
  { intros r Hr. rewrite Hrows1 in Hr.
    apply list_elem_of_In, in_map_iff in Hr as (r0 & <- & Hr0).
    apply list_elem_of_In in Hr0. rewrite Hrows0 in Hr0.
    apply elem_of_filter_bool in Hr0 as [Hr0 _]. cbn [cells].
    destruct (filter _ (cells r0) !! col) as [v|] eqn:E; [|reflexivity].
    apply map_lookup_filter_Some in E as [E _]. rewrite (Hmissing r0 Hr0) in E.
    discriminate. }
  assert (H2 : forall r, r ∈ rows (Train.handle_missing_values d1) -> cells r !! col = None).
  { rewrite handle_missing_values_unfold. apply fill_fold_missing.
    intros r Hr. cbn [dropna keep_rows rows] in Hr.
    apply elem_of_filter_bool in Hr as [Hr _]. now apply H1. }
  rewrite remove_outliers_unfold.
  destruct (rows (fold_left Train.remove_outliers_col Train.feature_columns
                    (Train.handle_missing_values d1))) as [|r rs] eqn:Hrows;
    [reflexivity|exfalso].
  assert (Hr : r ∈ rows (fold_left Train.remove_outliers_col Train.feature_columns
                           (Train.handle_missing_values d1)))
    by (rewrite Hrows; apply list_elem_of_here).
  pose proof (fold_outliers_present Train.feature_columns
                (Train.handle_missing_values d1) r Hhas Hr) as Hpresent.
  pose proof (elem_of_sublist _ _ _ Hr
                (rows_fold_outliers_sublist Train.feature_columns
                   (Train.handle_missing_values d1))) as Hr2.
  rewrite Forall_forall in Hpresent. destruct (Hpresent col Hcol) as [v Hv].
  rewrite (H2 r Hr2) in Hv. discriminate.
Qed.

(** The seven good rows, none of which has a disposition score. *)
Lemma column_without_values_empties_witness :
  exists out,
    Train.load_and_preprocess_data
      {| columns := needed_columns;
         rows := map (fun r => {| cells := delete "koi_score"%string (cells r);
                                  disposition := disposition r |})
                   (rows example_periods) |} = Ok out
    /\ rows out = [].
Proof.
  eexists. split; [vm_compute; reflexivity|].
  apply (column_without_values_empties
           {| columns := needed_columns;
              rows := map (fun r => {| cells := delete "koi_score"%string (cells r);
                                       disposition := disposition r |})
                        (rows example_periods) |} _ "koi_score"%string).
  - vm_compute. reflexivity.
  - vm_compute. do 10 apply list_elem_of_further. apply list_elem_of_here.
  - intros r Hr. cbn [rows] in Hr.
    apply list_elem_of_In, in_map_iff in Hr as (r0 & <- & _). cbn [cells].
    apply lookup_delete_eq.
Defined.
